(** * TLS signing offload: a model of [tls_offload.cpp]

    The translation unit glues an external signer into OpenSSL: a custom
    ENGINE advertises two EVP_PKEY_METHOD tables (RSA and EC) whose
    digest-sign slot is [CustomDigestSign]; the signer handle travels as
    ex-data on the native key; [OffloadSigning] initialises the engine on
    first use and binds certificate, key and handle to an SSL_CTX.

    The C++ code is embedded shallowly.  Everything the program mutates
    (its six file-scope statics, the objects it reaches through pointers,
    the two output streams) lives in one [World]; every function of the
    source is a computation in the monad [M], which threads the world and
    can end in [Crash] where the C++ has undefined behaviour (a null or
    dangling pointer is dereferenced).  OpenSSL itself is not part of the
    repository: each entry point the source calls is modelled by its
    documented contract, and where the library may fail for reasons the
    program cannot see (allocation, unsupported build options, the content
    of a certificate) the answer is read from an [OpenSSL] record that is an
    argument of the call. *)

From stdpp Require Import base option list functions gmap strings.
From Stdlib Require Import ZArith Lia.

Open Scope Z_scope.

(** ** Constants of the OpenSSL headers *)

Definition EVP_PKEY_RSA : Z := 6.
Definition EVP_PKEY_EC : Z := 408.
Definition EVP_PKEY_FLAG_AUTOARGLEN : Z := 2.
Definition EVP_PKEY_FLAG_SIGCTX_CUSTOM : Z := 4.
Definition SSL3_VERSION : Z := 768.
Definition TLS1_2_VERSION : Z := 771.
Definition TLS1_3_VERSION : Z := 772.
Definition DTLS1_BAD_VER : Z := 256.
Definition DTLS1_2_VERSION : Z := 65277.

(** Constants OpenSSL keeps to itself: the flag it sets on every method
    table made by [EVP_PKEY_meth_new], the highest TLS and DTLS versions it
    knows, and the [version] of the methods that negotiate the protocol
    version ([TLS_method], [DTLS_method] and their client and server
    variants). *)
Definition EVP_PKEY_FLAG_DYNAMIC : Z := 1.
Definition TLS_MAX_VERSION_INTERNAL : Z := TLS1_3_VERSION.
Definition DTLS_MAX_VERSION_INTERNAL : Z := DTLS1_2_VERSION.
Definition TLS_ANY_VERSION : Z := 65536.
Definition DTLS_ANY_VERSION : Z := 131071.

(** ** Data *)

(** Objects live in heaps indexed by locations; a nullable pointer is an
    [option loc].  Raw buffers ([unsigned char *], [size_t *]) are
    addresses into a flat memory. *)
Definition loc := nat.
Definition addr := Z.
Definition Mem := addr → Z.

(** Function pointers that end up in OpenSSL tables. *)
Inductive FnPtr :=
  | FnEngineGetMethods
  | FnCustomDigestSign
  | FnNative (id : nat).

(** The function-pointer members of [struct evp_pkey_method_st], in the
    order of the structure. *)
Inductive MethodSlot :=
  | pm_init | pm_copy | pm_cleanup
  | pm_paramgen_init | pm_paramgen
  | pm_keygen_init | pm_keygen
  | pm_sign_init | pm_sign
  | pm_verify_init | pm_verify
  | pm_verify_recover_init | pm_verify_recover
  | pm_signctx_init | pm_signctx
  | pm_verifyctx_init | pm_verifyctx
  | pm_encrypt_init | pm_encrypt
  | pm_decrypt_init | pm_decrypt
  | pm_derive_init | pm_derive
  | pm_ctrl | pm_ctrl_str
  | pm_digestsign | pm_digestverify
  | pm_check | pm_public_check | pm_param_check
  | pm_digest_custom.

#[global] Instance MethodSlot_eq_dec : EqDecision MethodSlot.
Proof. solve_decision. Defined.

(** A method table: identifier, flags, and what each member points to
    (null where [None]). *)
Record EVP_PKEY_METHOD := mkMethod {
  pkey_id : Z;
  pkey_flags : Z;
  member : MethodSlot → option FnPtr
}.

Record ENGINE := mkEngine { pkey_meths : option FnPtr }.

Record X509_PUBKEY := mkPubkey { algor : Z; public_key : list Z }.

Record X509 := mkX509 { cert_key : X509_PUBKEY; cert_body : list Z }.

(** The per-object ex-data table of an RSA or EC_KEY: slot index to the
    attached [CustomKey*]. *)
Record RSA := mkRSA { rsa_ex_data : gmap Z loc }.
Record EC_KEY := mkEC { ec_ex_data : gmap Z loc }.

Record EVP_PKEY := mkPkey {
  pk_type : Z;
  pk_engine : option ENGINE;
  pk_rsa : option RSA;
  pk_ec : option EC_KEY;
  pk_pub : X509_PUBKEY;
  pk_refs : nat
}.

(** A TLS context: the [version] of the method it was created with
    ([ctx->method->version]: [TLS_ANY_VERSION] for [TLS_method],
    [TLS1_2_VERSION] for [TLSv1_2_method], ...), the key and the
    certificate it currently serves, and its protocol floor. *)
Record SSL_CTX := mkCtx {
  method_version : Z;
  private_key : option loc;
  certificate : option X509;
  min_proto_version : Z
}.

(** The signing context handed to a digest-sign method.  OpenSSL reaches
    the method through [ctx->pctx->pmeth], so the EVP_PKEY_CTX is always
    there; the key it holds is what the source tests for null. *)
Record EVP_PKEY_CTX := mkPctx { pctx_pkey : option loc }.
Record EVP_MD_CTX := mkMdCtx { md_pctx : EVP_PKEY_CTX }.

(** Modelled from the spec: [SignFunc] and [CustomKey] are declared in
    [tls_offload.h], which is not among the sources.  The spec gives the
    handle one attribute, "a callback reference with signature
    sign(output_buffer, output_len_inout, input_digest, input_len) ->
    success_flag", and one operation [Sign] that invokes it.  The callback
    may write memory (the signature and its length). *)
Definition SignFunc := addr → addr → addr → Z → Mem → Z * Mem.
Record CustomKey := mkCustomKey { sign_func : SignFunc }.

(** Lines on the two streams, and the calls that cross the boundary of
    the translation unit in a way the claims talk about. *)
Inductive OutLine :=
  | LogLine (text : string)
  | BeforeSign (sig_len : Z)
  | AfterSign (sig_len : Z) (res : Z).

Inductive ErrLine :=
  | ErrText (text : string)
  | ErrQueue.

Inductive Event :=
  | RSA_get_ex_new_index (ret : Z)
  | EC_KEY_get_ex_new_index (ret : Z)
  | SignCall (key : loc) (sig sig_len tbs : addr) (tbs_len : Z).

(** The statics of lines 50-53, with their initialisers. *)
Record Globals := mkGlobals {
  EnableLogging : bool;
  rsa_ex_index : Z;
  ec_ex_index : Z;
  custom_rsa_pkey_method : option EVP_PKEY_METHOD;
  custom_ec_pkey_method : option EVP_PKEY_METHOD;
  custom_engine : option ENGINE
}.

Definition initial_globals : Globals :=
  {| EnableLogging := false;
     rsa_ex_index := -1;
     ec_ex_index := -1;
     custom_rsa_pkey_method := None;
     custom_ec_pkey_method := None;
     custom_engine := None |}.

Record World := mkWorld {
  globals : Globals;
  environ : gmap string string;
  stdout : list OutLine;
  stderr : list ErrLine;
  events : list Event;
  pkeys : gmap loc EVP_PKEY;
  ssl_ctxs : gmap loc SSL_CTX;
  custom_keys : gmap loc CustomKey;
  memory : Mem
}.

(** What OpenSSL answers where the program cannot know in advance. *)
Record OpenSSL := mkOpenSSL {
  RSA_get_ex_new_index_ret : Z;
  EC_KEY_get_ex_new_index_ret : Z;
  EVP_PKEY_meth_new_ok : Z → bool;
  EVP_PKEY_meth_find_ret : Z → option EVP_PKEY_METHOD;
  ENGINE_new_ok : bool;
  ENGINE_set_pkey_meths_ok : bool;
  ENGINE_init_ok : bool;
  BIO_new_mem_buf_ok : bool;
  PEM_read_bio_X509_ret : string → option X509;
  i2d_X509_PUBKEY_ret : Z;
  d2i_X509_PUBKEY_ok : bool;
  X509_PUBKEY_get_ok : bool;
  set_ex_data_ok : bool;
  SSL_CTX_use_PrivateKey_ok : bool;
  SSL_CTX_use_certificate_ok : bool;
  SSL_CTX_set_min_proto_version_ok : bool
}.

(** ** The monad *)

Inductive Res (A : Type) :=
  | Val (a : A)
  | Crash.
Arguments Val {A} a.
Arguments Crash {A}.

Definition M (A : Type) : Type := World → Res A * World.

Definition ret {A} (a : A) : M A := fun w => (Val a, w).

Definition bind {A B} (m : M A) (k : A → M B) : M B :=
  fun w => match m w with
           | (Val a, w') => k a w'
           | (Crash, w') => (Crash, w')
           end.

Definition crash {A} : M A := fun w => (Crash, w).

Declare Scope cxx_scope.
Delimit Scope cxx_scope with cxx.
Notation "x <- m ;; k" := (bind m (fun x => k))
  (at level 100, m at next level, right associativity) : cxx_scope.
Notation "m ;; k" := (bind m (fun _ => k))
  (at level 100, right associativity) : cxx_scope.
Open Scope cxx_scope.

Definition get {A} (f : World → A) : M A := fun w => (Val (f w), w).
Definition modify (f : World → World) : M unit := fun w => (Val tt, f w).

(** Dereferencing: a pointer that does not designate a live object is
    undefined behaviour. *)
Definition deref {A} (o : option A) : M A :=
  match o with Some a => ret a | None => crash end.

(** Field updates. *)
Definition set_globals (f : Globals → Globals) (w : World) : World :=
  mkWorld (f (globals w)) (environ w) (stdout w) (stderr w) (events w)
          (pkeys w) (ssl_ctxs w) (custom_keys w) (memory w).
Definition set_environ (e : gmap string string) (w : World) : World :=
  mkWorld (globals w) e (stdout w) (stderr w) (events w)
          (pkeys w) (ssl_ctxs w) (custom_keys w) (memory w).
Definition set_stdout (f : list OutLine → list OutLine) (w : World) : World :=
  mkWorld (globals w) (environ w) (f (stdout w)) (stderr w) (events w)
          (pkeys w) (ssl_ctxs w) (custom_keys w) (memory w).
Definition set_stderr (f : list ErrLine → list ErrLine) (w : World) : World :=
  mkWorld (globals w) (environ w) (stdout w) (f (stderr w)) (events w)
          (pkeys w) (ssl_ctxs w) (custom_keys w) (memory w).
Definition set_events (f : list Event → list Event) (w : World) : World :=
  mkWorld (globals w) (environ w) (stdout w) (stderr w) (f (events w))
          (pkeys w) (ssl_ctxs w) (custom_keys w) (memory w).
Definition set_pkeys (f : gmap loc EVP_PKEY → gmap loc EVP_PKEY) (w : World) : World :=
  mkWorld (globals w) (environ w) (stdout w) (stderr w) (events w)
          (f (pkeys w)) (ssl_ctxs w) (custom_keys w) (memory w).
Definition set_ssl_ctxs (f : gmap loc SSL_CTX → gmap loc SSL_CTX) (w : World) : World :=
  mkWorld (globals w) (environ w) (stdout w) (stderr w) (events w)
          (pkeys w) (f (ssl_ctxs w)) (custom_keys w) (memory w).
Definition set_custom_keys (f : gmap loc CustomKey → gmap loc CustomKey) (w : World) : World :=
  mkWorld (globals w) (environ w) (stdout w) (stderr w) (events w)
          (pkeys w) (ssl_ctxs w) (f (custom_keys w)) (memory w).
Definition set_memory (m : Mem) (w : World) : World :=
  mkWorld (globals w) (environ w) (stdout w) (stderr w) (events w)
          (pkeys w) (ssl_ctxs w) (custom_keys w) m.

Definition set_EnableLogging (b : bool) (g : Globals) : Globals :=
  mkGlobals b (rsa_ex_index g) (ec_ex_index g)
            (custom_rsa_pkey_method g) (custom_ec_pkey_method g) (custom_engine g).
Definition set_rsa_ex_index (i : Z) (g : Globals) : Globals :=
  mkGlobals (EnableLogging g) i (ec_ex_index g)
            (custom_rsa_pkey_method g) (custom_ec_pkey_method g) (custom_engine g).
Definition set_ec_ex_index (i : Z) (g : Globals) : Globals :=
  mkGlobals (EnableLogging g) (rsa_ex_index g) i
            (custom_rsa_pkey_method g) (custom_ec_pkey_method g) (custom_engine g).
Definition set_custom_rsa_pkey_method (m : option EVP_PKEY_METHOD) (g : Globals) : Globals :=
  mkGlobals (EnableLogging g) (rsa_ex_index g) (ec_ex_index g)
            m (custom_ec_pkey_method g) (custom_engine g).
Definition set_custom_ec_pkey_method (m : option EVP_PKEY_METHOD) (g : Globals) : Globals :=
  mkGlobals (EnableLogging g) (rsa_ex_index g) (ec_ex_index g)
            (custom_rsa_pkey_method g) m (custom_engine g).
Definition set_custom_engine (e : option ENGINE) (g : Globals) : Globals :=
  mkGlobals (EnableLogging g) (rsa_ex_index g) (ec_ex_index g)
            (custom_rsa_pkey_method g) (custom_ec_pkey_method g) e.

Definition cout (l : OutLine) : M unit := modify (set_stdout (fun o => o ++ [l])).
Definition cerr (l : ErrLine) : M unit := modify (set_stderr (fun e => e ++ [l])).
Definition emit (e : Event) : M unit := modify (set_events (fun t => t ++ [e])).

(** ** The OpenSSL entry points the source calls *)

(** The keys the TLS contexts hold.  A context owns a reference to its
    key, so the address of such a key is in use. *)
Definition held_keys (w : World) : gset loc :=
  list_to_set (omap private_key (map_to_list (ssl_ctxs w)).*2).

(** The accessors of a method table the source uses. *)
Definition EVP_PKEY_meth_get_init (m : EVP_PKEY_METHOD) : option FnPtr :=
  member m pm_init.
Definition EVP_PKEY_meth_get_cleanup (m : EVP_PKEY_METHOD) : option FnPtr :=
  member m pm_cleanup.
Definition EVP_PKEY_meth_get_ctrl (m : EVP_PKEY_METHOD) : option FnPtr * option FnPtr :=
  (member m pm_ctrl, member m pm_ctrl_str).

Definition EVP_PKEY_meth_set_init (m : EVP_PKEY_METHOD) (init : option FnPtr)
  : EVP_PKEY_METHOD :=
  mkMethod (pkey_id m) (pkey_flags m) (<[pm_init := init]> (member m)).
Definition EVP_PKEY_meth_set_cleanup (m : EVP_PKEY_METHOD) (cleanup : option FnPtr)
  : EVP_PKEY_METHOD :=
  mkMethod (pkey_id m) (pkey_flags m) (<[pm_cleanup := cleanup]> (member m)).
Definition EVP_PKEY_meth_set_ctrl (m : EVP_PKEY_METHOD) (ctrl ctrl_str : option FnPtr)
  : EVP_PKEY_METHOD :=
  mkMethod (pkey_id m) (pkey_flags m)
           (<[pm_ctrl_str := ctrl_str]> (<[pm_ctrl := ctrl]> (member m))).
Definition EVP_PKEY_meth_set_digestsign (m : EVP_PKEY_METHOD) (digestsign : option FnPtr)
  : EVP_PKEY_METHOD :=
  mkMethod (pkey_id m) (pkey_flags m) (<[pm_digestsign := digestsign]> (member m)).

Section Library.
Variable lib : OpenSSL.

(** A zeroed table with the identifier and the flags; the library marks
    it as dynamically allocated. *)
Definition EVP_PKEY_meth_new (nid flags : Z) : option EVP_PKEY_METHOD :=
  if EVP_PKEY_meth_new_ok lib nid
  then Some (mkMethod nid (Z.lor flags EVP_PKEY_FLAG_DYNAMIC) (fun _ => None))
  else None.

Definition EVP_PKEY_meth_find (nid : Z) : option EVP_PKEY_METHOD :=
  EVP_PKEY_meth_find_ret lib nid.

Definition ENGINE_new : option ENGINE :=
  if ENGINE_new_ok lib then Some (mkEngine None) else None.

Definition ENGINE_set_pkey_meths (e : ENGINE) (f : FnPtr) : bool * ENGINE :=
  if ENGINE_set_pkey_meths_ok lib then (true, mkEngine (Some f)) else (false, e).

(** [X509_get_X509_PUBKEY] reads a field of the certificate it is given;
    it has no null check. *)
Definition X509_get_X509_PUBKEY (x : option X509) : M X509_PUBKEY :=
  c <- deref x ;; ret (cert_key c).

(** [d2i_X509_PUBKEY] applied to the buffer [i2d_X509_PUBKEY] filled for
    [k]: the same public key again, or null. *)
Definition d2i_X509_PUBKEY (k : X509_PUBKEY) : option X509_PUBKEY :=
  if d2i_X509_PUBKEY_ok lib then Some k else None.

(** A fresh native key for a decoded public key.  Its type is the
    algorithm identifier of the encoding; the inner RSA or EC_KEY exists
    for those two types, with nothing attached yet. *)
Definition decoded_key (k : X509_PUBKEY) : EVP_PKEY :=
  {| pk_type := algor k;
     pk_engine := None;
     pk_rsa := if algor k =? EVP_PKEY_RSA then Some (mkRSA ∅) else None;
     pk_ec := if algor k =? EVP_PKEY_EC then Some (mkEC ∅) else None;
     pk_pub := k;
     pk_refs := 1 |}.

(** The new object gets an address that is not in use: neither a key of
    the heap nor a key a TLS context holds is there. *)
Definition X509_PUBKEY_get (k : X509_PUBKEY) : M (option loc) :=
  if X509_PUBKEY_get_ok lib
  then l <- get (fun w => fresh (dom (pkeys w) ∪ held_keys w)) ;;
       modify (set_pkeys (insert l (decoded_key k))) ;;
       ret (Some l)
  else ret None.

Definition EVP_PKEY_up_ref (p : loc) : M unit :=
  pk <- (o <- get (fun w => pkeys w !! p) ;; deref o) ;;
  modify (set_pkeys (insert p
    (mkPkey (pk_type pk) (pk_engine pk) (pk_rsa pk) (pk_ec pk) (pk_pub pk)
            (S (pk_refs pk))))).

(** The deleter of [OwnedEVP_PKEY]: drops one reference, and the object
    with the last one. *)
Definition EVP_PKEY_free (p : loc) : M unit :=
  pk <- (o <- get (fun w => pkeys w !! p) ;; deref o) ;;
  match pk_refs pk with
  | S (S n) =>
      modify (set_pkeys (insert p
        (mkPkey (pk_type pk) (pk_engine pk) (pk_rsa pk) (pk_ec pk) (pk_pub pk)
                (S n))))
  | _ => modify (set_pkeys (delete p))
  end.

(** [CRYPTO_set_ex_data] / [CRYPTO_get_ex_data] on one object's table.
    A negative index designates no slot: nothing can be stored there (the
    call reports failure, as in OpenSSL 3) and nothing is found there.
    Storing a null pointer empties the slot. *)
Definition CRYPTO_set_ex_data (ad : gmap Z loc) (idx : Z) (val : option loc)
  : bool * gmap Z loc :=
  if set_ex_data_ok lib && (0 <=? idx)
  then (true, match val with Some k => <[idx := k]> ad | None => delete idx ad end)
  else (false, ad).

Definition CRYPTO_get_ex_data (ad : gmap Z loc) (idx : Z) : option loc :=
  ad !! idx.

(** A context gives up the reference it holds on the key that is being
    replaced ([EVP_PKEY_free] of the old pointer, which does nothing for
    null).  The key heap holds the keys this translation unit makes; a
    context handed in by the caller may hold a key from elsewhere, whose
    count is not followed here, and giving up that reference changes
    nothing in the heap. *)
Definition release_held_key (old : option loc) : M unit :=
  match old with
  | None => ret tt
  | Some q =>
      o <- get (fun w => pkeys w !! q) ;;
      match o with
      | Some _ => EVP_PKEY_free q
      | None => ret tt
      end
  end.

(** [SSL_CTX_use_PrivateKey]: when the key is accepted, the key held so
    far is released, the new one gets one more reference and takes its
    place. *)
Definition SSL_CTX_use_PrivateKey (ctx : loc) (p : loc) : M bool :=
  c <- (o <- get (fun w => ssl_ctxs w !! ctx) ;; deref o) ;;
  if SSL_CTX_use_PrivateKey_ok lib
  then release_held_key (private_key c) ;;
       EVP_PKEY_up_ref p ;;
       modify (set_ssl_ctxs (insert ctx
         (mkCtx (method_version c) (Some p) (certificate c) (min_proto_version c)))) ;;
       ret true
  else ret false.

Definition SSL_CTX_use_certificate (ctx : loc) (x : option X509) : M bool :=
  c <- (o <- get (fun w => ssl_ctxs w !! ctx) ;; deref o) ;;
  match x with
  | Some cert =>
      if SSL_CTX_use_certificate_ok lib
      then modify (set_ssl_ctxs (insert ctx
             (mkCtx (method_version c) (private_key c) (Some cert)
                    (min_proto_version c)))) ;;
           ret true
      else ret false
  | None => ret false
  end.

(** [ssl_set_version_bound], as in OpenSSL 3: a bound of 0 is always
    stored; a version that is neither a TLS nor a DTLS version is refused;
    otherwise the call succeeds, and the bound is stored only for a method
    that negotiates the version and only when the version is of the
    method's protocol.  For a method fixed to one version the call
    succeeds and the bound stays as it is. *)
Definition dtls_ver_ordinal (v : Z) : Z :=
  if v =? DTLS1_BAD_VER then 65280 else v.

Definition valid_tls (version : Z) : bool :=
  (SSL3_VERSION <=? version) && (version <=? TLS_MAX_VERSION_INTERNAL).

Definition valid_dtls (version : Z) : bool :=
  (dtls_ver_ordinal DTLS_MAX_VERSION_INTERNAL <=? dtls_ver_ordinal version) &&
  (dtls_ver_ordinal version <=? dtls_ver_ordinal DTLS1_BAD_VER).

Definition ssl_set_version_bound (method_version version bound : Z) : bool * Z :=
  if version =? 0 then (true, version)
  else if negb (valid_tls version) && negb (valid_dtls version) then (false, bound)
  else if method_version =? TLS_ANY_VERSION
       then (true, if valid_tls version then version else bound)
  else if method_version =? DTLS_ANY_VERSION
       then (true, if valid_dtls version then version else bound)
  else (true, bound).

(** [SSL_CTX_set_min_proto_version]: the library first checks the new
    floor against the ceiling and the protocol versions compiled in (the
    answer is the library's), then sets the bound. *)
Definition SSL_CTX_set_min_proto_version (ctx : loc) (v : Z) : M bool :=
  c <- (o <- get (fun w => ssl_ctxs w !! ctx) ;; deref o) ;;
  if SSL_CTX_set_min_proto_version_ok lib
  then let '(ok, bound) :=
         ssl_set_version_bound (method_version c) v (min_proto_version c) in
       modify (set_ssl_ctxs (insert ctx
         (mkCtx (method_version c) (private_key c) (certificate c) bound))) ;;
       ret ok
  else ret false.

End Library.

Definition getenv (name : string) : M (option string) :=
  get (fun w => environ w !! name).

(** ** The translation unit *)

Definition nl : string := String (Ascii.ascii_of_nat 10) EmptyString.

(** Lines 55-71.  [out_method] says whether the caller passed a place for
    a method; the record is what the call returns and what it stored
    through its two out-parameters. *)
Record Discovery := mkDiscovery {
  returned : Z;
  stored_method : option (option EVP_PKEY_METHOD);
  stored_nids : option (list Z)
}.

Definition kNIDs : list Z := [EVP_PKEY_EC; EVP_PKEY_RSA].

Definition EngineGetMethods (g : Globals) (out_method : bool) (nid : Z) : Discovery :=
  if negb out_method
  then mkDiscovery (Z.of_nat (length kNIDs)) None (Some kNIDs)
  else if nid =? EVP_PKEY_EC
       then mkDiscovery 1 (Some (custom_ec_pkey_method g)) None
       else if nid =? EVP_PKEY_RSA
            then mkDiscovery 1 (Some (custom_rsa_pkey_method g)) None
            else mkDiscovery 0 None None.

(** Lines 73-77. *)
Definition LogInfo (message : string) : M unit :=
  b <- get (fun w => EnableLogging (globals w)) ;;
  if b then cout (LogLine ("tls_offload.cpp: " +:+ message +:+ "...."))
  else ret tt.

(** Lines 79-87.  Both allocations are made before either is tested. *)
Definition InitExData (lib : OpenSSL) : M bool :=
  emit (RSA_get_ex_new_index (RSA_get_ex_new_index_ret lib)) ;;
  modify (set_globals (set_rsa_ex_index (RSA_get_ex_new_index_ret lib))) ;;
  emit (EC_KEY_get_ex_new_index (EC_KEY_get_ex_new_index_ret lib)) ;;
  modify (set_globals (set_ec_ex_index (EC_KEY_get_ex_new_index_ret lib))) ;;
  g <- get globals ;;
  if (rsa_ex_index g <? 0) || (ec_ex_index g <? 0)
  then cerr (ErrText ("Error allocating ex data." +:+ nl)) ;; ret false
  else ret true.

(** What the engine answers when OpenSSL asks it for the method of one
    algorithm: the registered callback is run with a place for the method
    and no place for the list. *)
Definition ENGINE_get_pkey_meth (g : Globals) (e : ENGINE) (nid : Z)
  : option EVP_PKEY_METHOD :=
  match pkey_meths e with
  | Some FnEngineGetMethods =>
      let d := EngineGetMethods g true nid in
      if returned d =? 0 then None else mjoin (stored_method d)
  | _ => None
  end.

(** [EVP_PKEY_set1_engine]: with an engine, the engine must initialise
    and must offer a method for the key's type; with none, the key is
    simply detached. *)
Definition EVP_PKEY_set1_engine (lib : OpenSSL) (p : loc) (e : option ENGINE) : M bool :=
  pk <- (o <- get (fun w => pkeys w !! p) ;; deref o) ;;
  g <- get globals ;;
  let accepted :=
    match e with
    | Some eng => ENGINE_init_ok lib && bool_decide (is_Some (ENGINE_get_pkey_meth g eng (pk_type pk)))
    | None => true
    end in
  if accepted
  then modify (set_pkeys (insert p
         (mkPkey (pk_type pk) e (pk_rsa pk) (pk_ec pk) (pk_pub pk) (pk_refs pk)))) ;;
       ret true
  else ret false.

(** Lines 89-101. *)
Definition SetCustomKey (lib : OpenSSL) (pkey : loc) (key : option loc) : M bool :=
  pk <- (o <- get (fun w => pkeys w !! pkey) ;; deref o) ;;
  if pk_type pk =? EVP_PKEY_RSA
  then LogInfo "setting RSA custom key" ;;
       match pk_rsa pk with
       | Some rsa =>
           idx <- get (fun w => rsa_ex_index (globals w)) ;;
           let '(ok, ad) := CRYPTO_set_ex_data lib (rsa_ex_data rsa) idx key in
           modify (set_pkeys (insert pkey
             (mkPkey (pk_type pk) (pk_engine pk) (Some (mkRSA ad)) (pk_ec pk)
                     (pk_pub pk) (pk_refs pk)))) ;;
           ret ok
       | None => ret false
       end
  else if pk_type pk =? EVP_PKEY_EC
  then LogInfo "setting EC custom key" ;;
       match pk_ec pk with
       | Some ec_key =>
           idx <- get (fun w => ec_ex_index (globals w)) ;;
           let '(ok, ad) := CRYPTO_set_ex_data lib (ec_ex_data ec_key) idx key in
           modify (set_pkeys (insert pkey
             (mkPkey (pk_type pk) (pk_engine pk) (pk_rsa pk) (Some (mkEC ad))
                     (pk_pub pk) (pk_refs pk)))) ;;
           ret ok
       | None => ret false
       end
  else ret false.

(** Lines 103-113. *)
Definition GetCustomKey (pkey : loc) : M (option loc) :=
  pk <- (o <- get (fun w => pkeys w !! pkey) ;; deref o) ;;
  if pk_type pk =? EVP_PKEY_RSA
  then match pk_rsa pk with
       | Some rsa =>
           idx <- get (fun w => rsa_ex_index (globals w)) ;;
           ret (CRYPTO_get_ex_data (rsa_ex_data rsa) idx)
       | None => ret None
       end
  else if pk_type pk =? EVP_PKEY_EC
  then match pk_ec pk with
       | Some ec_key =>
           idx <- get (fun w => ec_ex_index (globals w)) ;;
           ret (CRYPTO_get_ex_data (ec_ex_data ec_key) idx)
       | None => ret None
       end
  else ret None.

(** Modelled from the spec: [CustomKey::Sign] is defined in
    [tls_offload.h], which is not among the sources.  Per the spec the
    handle "expos[es] a single operation", the wrapped callback: it is run on
    the current memory, and the call is recorded.  Calling through a
    pointer to a handle that is no longer alive is undefined. *)
Definition Sign (key : loc) (sig sig_len tbs : addr) (tbs_len : Z) : M Z :=
  ck <- (o <- get (fun w => custom_keys w !! key) ;; deref o) ;;
  emit (SignCall key sig sig_len tbs tbs_len) ;;
  m <- get memory ;;
  let '(res, m') := sign_func ck sig sig_len tbs tbs_len m in
  modify (set_memory m') ;;
  ret res.

(** Lines 115-137. *)
Definition CustomDigestSign (ctx : EVP_MD_CTX) (sig sig_len tbs : addr) (tbs_len : Z)
  : M Z :=
  LogInfo "calling CustomDigestSign" ;;
  match pctx_pkey (md_pctx ctx) with
  | None =>
      cerr (ErrText ("Could not get EVP_PKEY." +:+ nl)) ;; ret 0
  | Some pkey =>
      key <- GetCustomKey pkey ;;
      match key with
      | None =>
          cerr (ErrText ("Could not get CustomKey from EVP_PKEY." +:+ nl)) ;; ret 0
      | Some k =>
          before <- get (fun w => EnableLogging (globals w)) ;;
          (if before : bool
           then n <- get (fun w => memory w sig_len) ;; cout (BeforeSign n)
           else ret tt) ;;
          res <- Sign k sig sig_len tbs tbs_len ;;
          after <- get (fun w => EnableLogging (globals w)) ;;
          (if after : bool
           then n <- get (fun w => memory w sig_len) ;; cout (AfterSign n res)
           else ret tt) ;;
          ret res
      end
  end.

(** Lines 139-163. *)
Definition MakeCustomMethod (lib : OpenSSL) (nid : Z) : option EVP_PKEY_METHOD :=
  match EVP_PKEY_meth_new lib nid (Z.lor EVP_PKEY_FLAG_SIGCTX_CUSTOM EVP_PKEY_FLAG_AUTOARGLEN) with
  | None => None
  | Some method =>
      match EVP_PKEY_meth_find lib nid with
      | None => None
      | Some ossl_method =>
          let init := EVP_PKEY_meth_get_init ossl_method in
          let method := EVP_PKEY_meth_set_init method init in
          let cleanup := EVP_PKEY_meth_get_cleanup ossl_method in
          let method := EVP_PKEY_meth_set_cleanup method cleanup in
          let '(ctrl, ctrl_str) := EVP_PKEY_meth_get_ctrl ossl_method in
          let method := EVP_PKEY_meth_set_ctrl method ctrl ctrl_str in
          Some (EVP_PKEY_meth_set_digestsign method (Some FnCustomDigestSign))
      end
  end.

(** Lines 165-186.  A [wrapped] key that is not returned is released by
    its owner on the way out. *)
Definition ConfigureCertAndCustomKey (lib : OpenSSL) (custom_key : option loc)
    (cert : option X509) : M (option loc) :=
  pub <- X509_get_X509_PUBKEY cert ;;
  if i2d_X509_PUBKEY_ret lib <? 0 then ret None
  else
    match d2i_X509_PUBKEY lib pub with
    | None => ret None
    | Some pubkey =>
        wrapped <- X509_PUBKEY_get lib pubkey ;;
        match wrapped with
        | None => ret None
        | Some p =>
            e <- get (fun w => custom_engine (globals w)) ;;
            bound <- EVP_PKEY_set1_engine lib p e ;;
            if negb bound then EVP_PKEY_free p ;; ret None
            else
              attached <- SetCustomKey lib p custom_key ;;
              if negb attached then EVP_PKEY_free p ;; ret None
              else ret (Some p)
        end
    end.

(** Lines 188-201. *)
Definition InitEngine (lib : OpenSSL) : M bool :=
  modify (set_globals (set_custom_rsa_pkey_method (MakeCustomMethod lib EVP_PKEY_RSA))) ;;
  modify (set_globals (set_custom_ec_pkey_method (MakeCustomMethod lib EVP_PKEY_EC))) ;;
  g <- get globals ;;
  match custom_rsa_pkey_method g, custom_ec_pkey_method g with
  | Some _, Some _ =>
      match ENGINE_new lib with
      | None => ret false
      | Some engine =>
          let '(ok, engine') := ENGINE_set_pkey_meths lib engine FnEngineGetMethods in
          if negb ok then ret false
          else modify (set_globals (set_custom_engine (Some engine'))) ;; ret true
      end
  | _, _ => ret false
  end.

(** Lines 203-233.  The certificate is parsed and handed on as it comes
    back from the parser. *)
Definition ServeTLS (lib : OpenSSL) (custom_key : option loc) (cert : string)
    (ctx : loc) : M bool :=
  LogInfo "calling ServeTLS" ;;
  LogInfo "create x509 using the provided cert" ;;
  if negb (BIO_new_mem_buf_ok lib)
  then LogInfo "failed to read cert into bio" ;; ret false
  else
    let x509 := PEM_read_bio_X509_ret lib cert in
    LogInfo "create custom key" ;;
    wrapped_key <- ConfigureCertAndCustomKey lib custom_key x509 ;;
    match wrapped_key with
    | None => LogInfo "failed to create custom key" ;; ret false
    | Some p =>
        r1 <- SSL_CTX_use_PrivateKey lib ctx p ;;
        if negb r1
        then LogInfo "SSL_CTX_use_PrivateKey failed" ;; EVP_PKEY_free p ;; ret false
        else
          r2 <- SSL_CTX_use_certificate lib ctx x509 ;;
          if negb r2
          then LogInfo "SSL_CTX_use_certificate failed" ;; EVP_PKEY_free p ;; ret false
          else
            r3 <- SSL_CTX_set_min_proto_version lib ctx TLS1_3_VERSION ;;
            if negb r3
            then LogInfo "SSL_CTX_set_min_proto_version failed" ;;
                 EVP_PKEY_free p ;; ret false
            else EVP_PKEY_free p ;; ret true
    end.

Definition LOGGING_VARIABLE : string := "GOOGLE_AUTH_TLS_OFFLOAD_LOGGING".

(** Lines 242-259. *)
Definition OffloadSigning (lib : OpenSSL) (custom_key : option loc) (cert : string)
    (ctx : loc) : M Z :=
  val <- getenv LOGGING_VARIABLE ;;
  modify (set_globals (set_EnableLogging
    (match val with None => false | Some _ => true end))) ;;
  LogInfo "entering offload function" ;;
  e <- get (fun w => custom_engine (globals w)) ;;
  ready <-
    match e with
    | Some _ => ret true
    | None =>
        LogInfo "initializing ex data and custom engine" ;;
        ex <- InitExData lib ;;
        if negb ex then ret false else InitEngine lib
    end ;;
  if negb ready then cerr ErrQueue ;; ret 0
  else
    served <- ServeTLS lib custom_key cert ctx ;;
    if negb served then cerr ErrQueue ;; ret 0
    else LogInfo "offload function is done" ;; ret 1.

(** Lines 265-270. *)
Definition CreateCustomKey (f : SignFunc) : M loc :=
  key <- get (fun w => fresh (dom (custom_keys w))) ;;
  modify (set_custom_keys (insert key (mkCustomKey f))) ;;
  logging <- get (fun w => EnableLogging (globals w)) ;;
  (if logging : bool then LogInfo ("In CreateCustomKey" +:+ nl) else ret tt) ;;
  ret key.

(** Lines 276-280.  Deleting a null pointer does nothing; deleting a
    pointer that designates no live handle is undefined. *)
Definition DestroyCustomKey (key : option loc) : M unit :=
  logging <- get (fun w => EnableLogging (globals w)) ;;
  (if logging : bool then LogInfo ("In DestroyCustomKey" +:+ nl) else ret tt) ;;
  match key with
  | None => ret tt
  | Some k =>
      _ <- (o <- get (fun w => custom_keys w !! k) ;; deref o) ;;
      modify (set_custom_keys (delete k))
  end.

(** ** Running a process: a sequence of [OffloadSigning] calls *)

Record Call := mkCall {
  call_lib : OpenSSL;
  call_key : option loc;
  call_cert : string;
  call_ctx : loc
}.

Definition step (c : Call) : M Z :=
  OffloadSigning (call_lib c) (call_key c) (call_cert c) (call_ctx c).

(** The world after the calls have been made in order; a crash ends the
    process. *)
Fixpoint run (calls : list Call) (w : World) : World :=
  match calls with
  | [] => w
  | c :: cs =>
      match step c w with
      | (Val _, w') => run cs w'
      | (Crash, w') => w'
      end
  end.

(** What the process does between two calls of [OffloadSigning]: it makes
    and destroys handles, the library runs the signing thunk during
    handshakes, and the environment changes. *)
Inductive Operation :=
  | Create (sign_func : SignFunc)
  | Destroy (key : option loc)
  | DigestSign (ctx : EVP_MD_CTX) (sig sig_len tbs : addr) (tbs_len : Z)
  | Setenv (env : gmap string string).

Definition perform (o : Operation) : M unit :=
  match o with
  | Create f => _ <- CreateCustomKey f ;; ret tt
  | Destroy key => DestroyCustomKey key
  | DigestSign ctx sig sig_len tbs tbs_len =>
      _ <- CustomDigestSign ctx sig sig_len tbs tbs_len ;; ret tt
  | Setenv env => modify (set_environ env)
  end.

Fixpoint carry_out (ops : list Operation) (w : World) : World :=
  match ops with
  | [] => w
  | o :: os =>
      match perform o w with
      | (Val _, w') => carry_out os w'
      | (Crash, w') => w'
      end
  end.

(** [InitExData] is the only caller of [RSA_get_ex_new_index] and calls it
    once, so its runs are the recorded calls of that function. *)
Definition is_rsa_allocation (e : Event) : bool :=
  match e with RSA_get_ex_new_index _ => true | _ => false end.

Definition InitExData_runs (w : World) : nat :=
  length (List.filter is_rsa_allocation (events w)).

Definition initial_world (env : gmap string string) (ctxs : gmap loc SSL_CTX)
    (keys : gmap loc CustomKey) (m : Mem) : World :=
  mkWorld initial_globals env [] [] [] ∅ ctxs keys m.

Definition logging_requested (w : World) : bool :=
  bool_decide (is_Some (environ w !! LOGGING_VARIABLE)).

(** What [LogInfo] does to the world: one more line when logging is on. *)
Definition log_line (message : string) : OutLine :=
  LogLine ("tls_offload.cpp: " +:+ message +:+ "....").

Definition logged (message : string) (w : World) : World :=
  set_stdout (fun o => if EnableLogging (globals w) then o ++ [log_line message] else o) w.

(** The lines a conditional print adds. *)
Definition told (b : bool) (lines : list OutLine) : list OutLine :=
  if b then lines else [].

(** The key heap after a context has given up its reference to [old]. *)
Definition dropped (q : loc) (pk : EVP_PKEY) (m : gmap loc EVP_PKEY)
  : gmap loc EVP_PKEY :=
  match pk_refs pk with
  | S (S n) =>
      <[q := mkPkey (pk_type pk) (pk_engine pk) (pk_rsa pk) (pk_ec pk) (pk_pub pk)
                    (S n)]> m
  | _ => delete q m
  end.

Definition released (old : option loc) (m : gmap loc EVP_PKEY)
  : gmap loc EVP_PKEY :=
  match old with
  | Some q => match m !! q with Some pk => dropped q pk m | None => m end
  | None => m
  end.

(** What a function leaves alone.  [ConfigureCertAndCustomKey] works on
    the key heap (and logs); [ServeTLS] also on the TLS context. *)
Definition same_outside_keys (w w' : World) : Prop :=
  globals w' = globals w ∧ environ w' = environ w ∧ stderr w' = stderr w ∧
  events w' = events w ∧ ssl_ctxs w' = ssl_ctxs w ∧
  custom_keys w' = custom_keys w ∧ memory w' = memory w.

Definition same_process_state (w w' : World) : Prop :=
  globals w' = globals w ∧ environ w' = environ w ∧ stderr w' = stderr w ∧
  events w' = events w ∧ custom_keys w' = custom_keys w ∧ memory w' = memory w.

(** The engine is there when the call reaches [ServeTLS]: it was there
    already, or every step of the initialisation succeeds. *)
Definition init_succeeds (lib : OpenSSL) : Prop :=
  0 ≤ RSA_get_ex_new_index_ret lib ∧ 0 ≤ EC_KEY_get_ex_new_index_ret lib ∧
  is_Some (MakeCustomMethod lib EVP_PKEY_RSA) ∧
  is_Some (MakeCustomMethod lib EVP_PKEY_EC) ∧
  ENGINE_new_ok lib = true ∧ ENGINE_set_pkey_meths_ok lib = true.

Definition engine_ready (lib : OpenSSL) (w : World) : Prop :=
  is_Some (custom_engine (globals w)) ∨ init_succeeds lib.

(** ** Concrete scenarios

    A library that works, one in which no engine can be created, three
    certificate texts, a process at start-up with one empty TLS context, and
    a signer that reports a 64-byte signature. *)

Definition NID_ED25519 : Z := 1087.

Definition native_method (nid : Z) : option EVP_PKEY_METHOD :=
  if (nid =? EVP_PKEY_RSA) || (nid =? EVP_PKEY_EC)
  then Some (mkMethod nid EVP_PKEY_FLAG_AUTOARGLEN
         (fun slot =>
            match slot with
            | pm_init => Some (FnNative 1)
            | pm_copy => Some (FnNative 2)
            | pm_cleanup => Some (FnNative 3)
            | pm_keygen => Some (FnNative 4)
            | pm_sign => Some (FnNative 5)
            | pm_verify => Some (FnNative 6)
            | pm_ctrl => Some (FnNative 7)
            | pm_ctrl_str => Some (FnNative 8)
            | _ => None
            end))
  else None.

Definition ec_certificate : X509 :=
  mkX509 (mkPubkey EVP_PKEY_EC [4; 17; 34]) [48; 130].
Definition rsa_certificate : X509 :=
  mkX509 (mkPubkey EVP_PKEY_RSA [48; 13; 6]) [48; 131].
Definition ed25519_certificate : X509 :=
  mkX509 (mkPubkey NID_ED25519 [9; 8; 7]) [48; 129].

Definition EC_PEM : string := "-----BEGIN CERTIFICATE----- ec -----END CERTIFICATE-----".
Definition RSA_PEM : string := "-----BEGIN CERTIFICATE----- rsa -----END CERTIFICATE-----".
Definition ED25519_PEM : string := "-----BEGIN CERTIFICATE----- ed25519 -----END CERTIFICATE-----".
Definition NOT_PEM : string := "not a certificate".

Definition read_pem (text : string) : option X509 :=
  if String.eqb text EC_PEM then Some ec_certificate
  else if String.eqb text RSA_PEM then Some rsa_certificate
  else if String.eqb text ED25519_PEM then Some ed25519_certificate
  else None.

Definition healthy : OpenSSL :=
  {| RSA_get_ex_new_index_ret := 0;
     EC_KEY_get_ex_new_index_ret := 0;
     EVP_PKEY_meth_new_ok := fun _ => true;
     EVP_PKEY_meth_find_ret := native_method;
     ENGINE_new_ok := true;
     ENGINE_set_pkey_meths_ok := true;
     ENGINE_init_ok := true;
     BIO_new_mem_buf_ok := true;
     PEM_read_bio_X509_ret := read_pem;
     i2d_X509_PUBKEY_ret := 91;
     d2i_X509_PUBKEY_ok := true;
     X509_PUBKEY_get_ok := true;
     set_ex_data_ok := true;
     SSL_CTX_use_PrivateKey_ok := true;
     SSL_CTX_use_certificate_ok := true;
     SSL_CTX_set_min_proto_version_ok := true |}.

Definition engine_unavailable : OpenSSL :=
  {| RSA_get_ex_new_index_ret := 0;
     EC_KEY_get_ex_new_index_ret := 0;
     EVP_PKEY_meth_new_ok := fun _ => true;
     EVP_PKEY_meth_find_ret := native_method;
     ENGINE_new_ok := false;
     ENGINE_set_pkey_meths_ok := true;
     ENGINE_init_ok := true;
     BIO_new_mem_buf_ok := true;
     PEM_read_bio_X509_ret := read_pem;
     i2d_X509_PUBKEY_ret := 91;
     d2i_X509_PUBKEY_ok := true;
     X509_PUBKEY_get_ok := true;
     set_ex_data_ok := true;
     SSL_CTX_use_PrivateKey_ok := true;
     SSL_CTX_use_certificate_ok := true;
     SSL_CTX_set_min_proto_version_ok := true |}.

(** A context as [SSL_CTX_new(TLS_method())] makes it, and one that is
    fixed to TLS 1.2 ([TLSv1_2_method]). *)
Definition empty_context : SSL_CTX := mkCtx TLS_ANY_VERSION None None 0.
Definition tls12_context : SSL_CTX := mkCtx TLS1_2_VERSION None None 0.

Definition zero_memory : Mem := fun _ => 0.

Definition fixed_signer : SignFunc :=
  fun sig sig_len tbs tbs_len m =>
    (1, fun a => if a =? sig_len then 64 else m a).

Definition other_signer : SignFunc :=
  fun sig sig_len tbs tbs_len m => (0, m).

(** A process that has not called anything yet: two empty TLS contexts at
    1 and 2, two signer handles at 10 and 11. *)
Definition process_start (env : gmap string string) : World :=
  initial_world env
    {[ 1%nat := empty_context; 2%nat := empty_context ]}
    {[ 10%nat := mkCustomKey fixed_signer; 11%nat := mkCustomKey other_signer ]}
    zero_memory.

(** A process whose one TLS context, at 1, is fixed to TLS 1.2. *)
Definition fixed_version_process : World :=
  initial_world ∅ {[ 1%nat := tls12_context ]}
    {[ 10%nat := mkCustomKey fixed_signer ]} zero_memory.

(** The same process after binding an EC certificate to context 1 with
    handle 10 and an RSA certificate to context 2 with handle 11.  The two
    native keys are the objects 0 and 1. *)
Definition two_bindings : World :=
  run [mkCall healthy (Some 10%nat) EC_PEM 1%nat;
       mkCall healthy (Some 11%nat) RSA_PEM 2%nat] (process_start ∅).

(** Two native keys with nothing attached, in a process whose indices are
    allocated. *)
Definition two_keys : World :=
  mkWorld (mkGlobals false 0 0 None None None) ∅ [] [] []
          {[ 0%nat := decoded_key (cert_key ec_certificate);
             1%nat := decoded_key (cert_key rsa_certificate) ]}
          ∅
          {[ 10%nat := mkCustomKey fixed_signer; 11%nat := mkCustomKey other_signer ]}
          zero_memory.

Definition signing_context (pkey : loc) : EVP_MD_CTX := mkMdCtx (mkPctx (Some pkey)).

(** A first call in which the engine cannot be created, then a call in
    which everything works. *)
Definition retry_after_failure : list Call :=
  [mkCall engine_unavailable (Some 10%nat) EC_PEM 1%nat;
   mkCall healthy (Some 10%nat) EC_PEM 1%nat].

(** ** Notions used by the further properties *)

(** The flags of a table made by [MakeCustomMethod]: the two the source
    asks for and the one the library adds. *)
Definition override_flags : Z :=
  Z.lor (Z.lor EVP_PKEY_FLAG_SIGCTX_CUSTOM EVP_PKEY_FLAG_AUTOARGLEN)
        EVP_PKEY_FLAG_DYNAMIC.

(** A method table made by [MakeCustomMethod] for [nid]. *)
Definition is_override (nid : Z) (m : EVP_PKEY_METHOD) : Prop :=
  pkey_id m = nid ∧
  pkey_flags m = override_flags ∧
  member m pm_digestsign = Some FnCustomDigestSign.

(** The members of the table made from the library's table [native]:
    four are taken from it, digest-sign is the thunk, all others are
    null. *)
Definition override_member (native : EVP_PKEY_METHOD) (slot : MethodSlot)
  : option FnPtr :=
  match slot with
  | pm_init | pm_cleanup | pm_ctrl | pm_ctrl_str => member native slot
  | pm_digestsign => Some FnCustomDigestSign
  | _ => None
  end.

Definition is_override_of (nid : Z) (native m : EVP_PKEY_METHOD) : Prop :=
  pkey_id m = nid ∧
  pkey_flags m = override_flags ∧
  ∀ slot, member m slot = override_member native slot.

(** What holds of the statics whenever the engine pointer is set. *)
Definition registrar_ok (g : Globals) : Prop :=
  ∀ e, custom_engine g = Some e →
    pkey_meths e = Some FnEngineGetMethods ∧
    0 ≤ rsa_ex_index g ∧ 0 ≤ ec_ex_index g ∧
    (∃ m, custom_rsa_pkey_method g = Some m ∧ is_override EVP_PKEY_RSA m) ∧
    (∃ m, custom_ec_pkey_method g = Some m ∧ is_override EVP_PKEY_EC m).

(** The world after a print that is made only when [b] holds. *)
Definition logged_if (b : bool) (message : string) (w : World) : World :=
  if b then logged message w else w.

(** Every library step of the bind succeeds for the certificate [x]. *)
Definition bind_steps_succeed (lib : OpenSSL) (cert : string) (x : X509) : Prop :=
  BIO_new_mem_buf_ok lib = true ∧
  PEM_read_bio_X509_ret lib cert = Some x ∧
  0 ≤ i2d_X509_PUBKEY_ret lib ∧
  d2i_X509_PUBKEY_ok lib = true ∧
  X509_PUBKEY_get_ok lib = true ∧
  ENGINE_init_ok lib = true ∧
  (algor (cert_key x) = EVP_PKEY_RSA ∨ algor (cert_key x) = EVP_PKEY_EC) ∧
  set_ex_data_ok lib = true ∧
  SSL_CTX_use_PrivateKey_ok lib = true ∧
  SSL_CTX_use_certificate_ok lib = true ∧
  SSL_CTX_set_min_proto_version_ok lib = true.

(** The part of [OffloadSigning] that precedes [ServeTLS] (lines 243-252):
    it yields whether the engine is there. *)
Definition before_bind (lib : OpenSSL) : M bool :=
  val <- getenv LOGGING_VARIABLE ;;
  modify (set_globals (set_EnableLogging
    (match val with None => false | Some _ => true end))) ;;
  LogInfo "entering offload function" ;;
  e <- get (fun w => custom_engine (globals w)) ;;
  match e with
  | Some _ => ret true
  | None =>
      LogInfo "initializing ex data and custom engine" ;;
      ex <- InitExData lib ;;
      if negb ex then ret false else InitEngine lib
  end.

(** A library in which everything works except the installation of the
    certificate in the context. *)
Definition certificate_refused : OpenSSL :=
  {| RSA_get_ex_new_index_ret := 0;
     EC_KEY_get_ex_new_index_ret := 0;
     EVP_PKEY_meth_new_ok := fun _ => true;
     EVP_PKEY_meth_find_ret := native_method;
     ENGINE_new_ok := true;
     ENGINE_set_pkey_meths_ok := true;
     ENGINE_init_ok := true;
     BIO_new_mem_buf_ok := true;
     PEM_read_bio_X509_ret := read_pem;
     i2d_X509_PUBKEY_ret := 91;
     d2i_X509_PUBKEY_ok := true;
     X509_PUBKEY_get_ok := true;
     set_ex_data_ok := true;
     SSL_CTX_use_PrivateKey_ok := true;
     SSL_CTX_use_certificate_ok := false;
     SSL_CTX_set_min_proto_version_ok := true |}.

(** ** Proof tools *)

Ltac unfold_m :=
  unfold bind, ret, get, modify, deref, crash, cout, cerr, emit, getenv.

(** Case analysis on a scrutinee that contains no further match, so that
    the program is followed in the order in which it runs. *)
Ltac inner_case :=
  match goal with
  | |- context [match ?x with _ => _ end] =>
      lazymatch x with
      | context [match _ with _ => _ end] => fail
      | _ => destruct x eqn:?
      end
  end.


(** *** The monad *)

Lemma bind_run {A B} (m : M A) (k : A → M B) w a w' :
  m w = (Val a, w') → bind m k w = k a w'.
Proof. unfold bind. intros ->. reflexivity. Qed.

Lemma world_eta w :
  mkWorld (globals w) (environ w) (stdout w) (stderr w) (events w)
          (pkeys w) (ssl_ctxs w) (custom_keys w) (memory w) = w.
Proof. by destruct w. Qed.

(** *** Logging *)

Lemma LogInfo_run message w : LogInfo message w = (Val tt, logged message w).
Proof.
  unfold LogInfo, logged, set_stdout. unfold_m. cbn.
  destruct (EnableLogging (globals w)); cbn; [done|].
  by rewrite world_eta.
Qed.

Lemma logged_stdout_off message w :
  EnableLogging (globals w) = false → stdout (logged message w) = stdout w.
Proof. cbn. by intros ->. Qed.

Lemma logged_stdout_on message w :
  EnableLogging (globals w) = true →
  stdout (logged message w) = stdout w ++ [log_line message].
Proof. cbn. by intros ->. Qed.

(** *** Native keys in the heap *)

(** [GetCustomKey] reads the key object and the two slot indices, nothing
    else, and changes nothing. *)
Lemma GetCustomKey_frame pkey w w' :
  pkeys w' !! pkey = pkeys w !! pkey →
  rsa_ex_index (globals w') = rsa_ex_index (globals w) →
  ec_ex_index (globals w') = ec_ex_index (globals w) →
  GetCustomKey pkey w' = ((GetCustomKey pkey w).1, w').
Proof.
  intros Hp Hr He. unfold GetCustomKey. unfold_m. cbn. rewrite Hp.
  destruct (pkeys w !! pkey) as [pk|]; cbn; [|done].
  repeat case_match; cbn; rewrite ?Hr, ?He; done.
Qed.

Lemma GetCustomKey_found pkey pk w :
  pkeys w !! pkey = Some pk →
  (GetCustomKey pkey w).1 =
    Val (if pk_type pk =? EVP_PKEY_RSA
         then rsa ← pk_rsa pk; rsa_ex_data rsa !! rsa_ex_index (globals w)
         else if pk_type pk =? EVP_PKEY_EC
              then ec ← pk_ec pk; ec_ex_data ec !! ec_ex_index (globals w)
              else None).
Proof.
  intros H. unfold GetCustomKey. unfold_m. cbn. rewrite H. cbn.
  repeat case_match; done.
Qed.

(** *** Keys held by contexts, and their release *)

Lemma held_keys_spec w ctx c p :
  ssl_ctxs w !! ctx = Some c → private_key c = Some p → p ∈ held_keys w.
Proof.
  intros Hc Hp. unfold held_keys.
  apply elem_of_list_to_set, list_elem_of_omap. exists c. split; [|done].
  apply list_elem_of_fmap. exists (ctx, c). split; [done|].
  by apply elem_of_map_to_list.
Qed.

(** An address handed out for a new key is neither in the heap nor held
    by a context. *)
Lemma new_key_free w :
  pkeys w !! fresh (dom (pkeys w) ∪ held_keys w) = None ∧
  fresh (dom (pkeys w) ∪ held_keys w) ∉ held_keys w.
Proof.
  pose proof (is_fresh (dom (pkeys w) ∪ held_keys w)) as H.
  apply not_elem_of_union in H as [H1 H2].
  split; [by apply not_elem_of_dom|done].
Qed.

Lemma release_held_key_run old w :
  release_held_key old w = (Val tt, set_pkeys (released old) w).
Proof.
  unfold release_held_key, released, EVP_PKEY_free, set_pkeys.
  destruct old as [q|]; unfold_m; cbn; [|by rewrite world_eta].
  destruct (pkeys w !! q) as [pk|] eqn:E; cbn; [|by rewrite world_eta].
  rewrite E. cbn. unfold dropped. by destruct (pk_refs pk) as [|[|n]].
Qed.

Lemma released_other old m p :
  old ≠ Some p → released old m !! p = m !! p.
Proof.
  intros Hne. unfold released, dropped.
  destruct old as [q|]; [|done].
  assert (q ≠ p) by congruence.
  destruct (m !! q) as [pk|]; [|done].
  destruct (pk_refs pk) as [|[|n]]; by rewrite ?lookup_delete_ne, ?lookup_insert_ne.
Qed.

(** The floor the source asks for is a TLS version: only a context whose
    method negotiates the TLS version takes it. *)
Lemma ssl_set_version_bound_TLS1_3 mv bound :
  ssl_set_version_bound mv TLS1_3_VERSION bound =
    (true, if mv =? TLS_ANY_VERSION then TLS1_3_VERSION else bound).
Proof.
  unfold ssl_set_version_bound. cbn.
  destruct (mv =? TLS_ANY_VERSION); [done|].
  by destruct (mv =? DTLS_ANY_VERSION).
Qed.

(** *** Following the program *)

#[local] Arguments LogInfo : simpl never.
#[local] Arguments release_held_key : simpl never.
#[local] Arguments released : simpl never.
#[local] Arguments ssl_set_version_bound : simpl never.
#[local] Arguments held_keys : simpl never.
Ltac exec_with tac :=
  repeat (first [ progress cbn
                | progress unfold_m
                | rewrite LogInfo_run
                | rewrite release_held_key_run
                | rewrite ssl_set_version_bound_TLS1_3
                | rewrite lookup_insert_eq
                | progress tac
                | inner_case ]).
Ltac exec := exec_with idtac.


Ltac unfold_configure :=
  unfold ConfigureCertAndCustomKey, X509_get_X509_PUBKEY, d2i_X509_PUBKEY, X509_PUBKEY_get,
    EVP_PKEY_set1_engine, SetCustomKey, EVP_PKEY_free.

Lemma ConfigureCertAndCustomKey_frame lib custom_key cert w :
  same_outside_keys w (ConfigureCertAndCustomKey lib custom_key cert w).2.
Proof.
  unfold_configure. unfold same_outside_keys.
  exec. all: done.
Qed.

Lemma ConfigureCertAndCustomKey_unsupported lib custom_key x w :
  algor (cert_key x) ≠ EVP_PKEY_RSA →
  algor (cert_key x) ≠ EVP_PKEY_EC →
  (ConfigureCertAndCustomKey lib custom_key (Some x) w).1 = Val None.
Proof.
  intros Hrsa%Z.eqb_neq Hec%Z.eqb_neq.
  unfold_configure.
  exec_with ltac:(rewrite ?Hrsa, ?Hec).
  all: try done.
Qed.

Lemma ConfigureCertAndCustomKey_bound lib custom_key cert w p w' :
  ConfigureCertAndCustomKey lib custom_key cert w = (Val (Some p), w') →
  ∃ x pk, cert = Some x ∧ pkeys w' !! p = Some pk ∧
    pk_pub pk = cert_key x ∧ pk_type pk = algor (cert_key x) ∧
    (pk_type pk = EVP_PKEY_RSA ∨ pk_type pk = EVP_PKEY_EC) ∧
    pk_engine pk = custom_engine (globals w) ∧
    pk_refs pk = 1%nat ∧
    (GetCustomKey p w').1 = Val custom_key.
Proof.
  unfold_configure. unfold CRYPTO_set_ex_data.
  destruct cert as [x|]; [|by unfold_m].
  intros H. exists x. revert H.
  exec.
  all: try done.
  all: intros [= <- <-]; eexists; (split; [reflexivity|]); cbn; rewrite lookup_insert_eq.
  all: (split; [reflexivity|]).
  all: erewrite GetCustomKey_found by (cbn; apply lookup_insert_eq).
  all: cbn.
  all: repeat match goal with
         | H : (?a =? ?b) = _ |- context [?a =? ?b] => rewrite H
         end.
  all: cbn; rewrite ?lookup_insert_eq, ?lookup_delete_eq.
  all: repeat match goal with H : (_ =? _) = true |- _ => apply Z.eqb_eq in H end.
  all: repeat (split; [by auto|]).
  all: try done.
Qed.

(** The key that is returned is a new object, at an address no context
    holds. *)
Lemma ConfigureCertAndCustomKey_new lib custom_key cert w p w' :
  ConfigureCertAndCustomKey lib custom_key cert w = (Val (Some p), w') →
  pkeys w !! p = None ∧ p ∉ held_keys w.
Proof.
  unfold_configure. unfold CRYPTO_set_ex_data.
  exec.
  all: try done.
  all: intros [= <- <-]; apply new_key_free.
Qed.
#[local] Arguments ConfigureCertAndCustomKey : simpl never.


Ltac configure_facts :=
  match goal with
  | H : ConfigureCertAndCustomKey ?l ?k ?x ?w = (_, ?w') |- _ =>
      let F := fresh "F" in
      pose proof (ConfigureCertAndCustomKey_frame l k x w) as F;
      rewrite H in F; cbn in F;
      destruct F as (?&?&?&?&?&?&?)
  end.

Ltac unfold_serve :=
  unfold ServeTLS, SSL_CTX_use_PrivateKey, SSL_CTX_use_certificate,
    SSL_CTX_set_min_proto_version, EVP_PKEY_up_ref, EVP_PKEY_free.

Lemma ServeTLS_frame lib custom_key cert ctx w :
  same_process_state w (ServeTLS lib custom_key cert ctx w).2.
Proof.
  unfold_serve. unfold same_process_state.
  exec.
  all: try configure_facts; cbn in *.
  all: try done.
Qed.

Lemma ServeTLS_unsupported lib custom_key cert ctx w x :
  PEM_read_bio_X509_ret lib cert = Some x →
  algor (cert_key x) ≠ EVP_PKEY_RSA →
  algor (cert_key x) ≠ EVP_PKEY_EC →
  (ServeTLS lib custom_key cert ctx w).1 = Val false ∧
  ssl_ctxs (ServeTLS lib custom_key cert ctx w).2 = ssl_ctxs w.
Proof.
  intros Hx Hrsa Hec. unfold ServeTLS. rewrite Hx.
  exec; try done.
  all: configure_facts.
  all: match goal with
       | H : ConfigureCertAndCustomKey ?l ?k (Some ?y) ?w = _ |- _ =>
           pose proof (ConfigureCertAndCustomKey_unsupported l k y w Hrsa Hec) as U;
           rewrite H in U; cbn in U
       end.
  all: try done.
Qed.

Lemma ServeTLS_malformed lib custom_key cert ctx w :
  BIO_new_mem_buf_ok lib = true →
  PEM_read_bio_X509_ret lib cert = None →
  (ServeTLS lib custom_key cert ctx w).1 = Crash.
Proof.
  intros Hbio Hx. unfold ServeTLS. rewrite Hbio, Hx.
  unfold ConfigureCertAndCustomKey, X509_get_X509_PUBKEY.
  exec. done.
Qed.

Lemma ServeTLS_installed lib custom_key cert ctx w w' :
  ServeTLS lib custom_key cert ctx w = (Val true, w') →
  ∃ c p x pk,
    ssl_ctxs w' !! ctx = Some c ∧
    private_key c = Some p ∧ certificate c = Some x ∧
    (∃ c0, ssl_ctxs w !! ctx = Some c0 ∧
           method_version c = method_version c0 ∧
           min_proto_version c =
             if method_version c0 =? TLS_ANY_VERSION then TLS1_3_VERSION
             else min_proto_version c0) ∧
    PEM_read_bio_X509_ret lib cert = Some x ∧
    pkeys w' !! p = Some pk ∧
    pk_pub pk = cert_key x ∧
    (pk_type pk = EVP_PKEY_RSA ∨ pk_type pk = EVP_PKEY_EC) ∧
    pk_engine pk = custom_engine (globals w) ∧
    (GetCustomKey p w').1 = Val custom_key.
Proof.
  unfold ServeTLS.
  rewrite !(bind_run _ _ _ _ _ (LogInfo_run _ _)).
  destruct (BIO_new_mem_buf_ok lib); cbn [negb];
    [|rewrite (bind_run _ _ _ _ _ (LogInfo_run _ _)); by unfold_m].
  rewrite (bind_run _ _ _ _ _ (LogInfo_run _ _)).
  unfold bind at 1.
  destruct (ConfigureCertAndCustomKey _ _ _ _) as [[[p|]|] w1] eqn:E.
  2:{ rewrite (bind_run _ _ _ _ _ (LogInfo_run _ _)). by unfold_m. }
  2:{ done. }
  match type of E with
  | ConfigureCertAndCustomKey ?l ?k ?x ?w0 = _ =>
      pose proof (ConfigureCertAndCustomKey_frame l k x w0) as F
  end.
  rewrite E in F. cbn in F. destruct F as (Hg & _ & _ & _ & Hc & _ & _).
  destruct (ConfigureCertAndCustomKey_new _ _ _ _ _ _ E) as [_ Hnew].
  apply ConfigureCertAndCustomKey_bound in E
    as (x & pk & Hx & Hpk & Hpub & Hty & Hfam & Heng & Hrefs & Hget).
  rewrite Hx.
  assert (ssl_ctxs w1 = ssl_ctxs w) as Hc' by exact Hc.
  unfold SSL_CTX_use_PrivateKey, SSL_CTX_use_certificate,
    SSL_CTX_set_min_proto_version, EVP_PKEY_up_ref, EVP_PKEY_free.
  destruct (ssl_ctxs w !! ctx) as [c0|] eqn:Hctx;
    [|unfold_m; cbn; rewrite Hc', Hctx; done].
  assert (private_key c0 ≠ Some p) as Hne.
  { intros Hp. apply Hnew. eapply held_keys_spec; [|exact Hp]. exact Hctx. }
  exec_with ltac:(rewrite ?Hc', ?Hctx, ?(released_other _ _ p Hne), ?Hpk, ?Hrefs).
  all: try done.
  all: intros [= <-]; eexists _, p, x, _; cbn; rewrite !lookup_insert_eq.
  all: erewrite (GetCustomKey_found p pk w1) in Hget by done.
  all: erewrite GetCustomKey_found by (cbn; apply lookup_insert_eq).
  all: cbn in Hg, Heng; cbn; rewrite Hg in *.
  all: split_and!; try done.
  all: exists c0; cbn.
  all: match goal with H : (method_version _ =? _) = _ |- _ => rewrite H end.
  all: done.
Qed.

#[local] Arguments ServeTLS : simpl never.
#[local] Arguments MakeCustomMethod : simpl never.

Ltac serve_facts :=
  match goal with
  | H : ServeTLS ?l ?k ?c ?x ?w = (_, ?w') |- _ =>
      let F := fresh "F" in
      pose proof (ServeTLS_frame l k c x w) as F;
      rewrite H in F; cbn in F;
      destruct F as (?&?&?&?&?&?)
  end.

Ltac unfold_offload :=
  unfold OffloadSigning, InitExData, InitEngine, ENGINE_new, ENGINE_set_pkey_meths.

Lemma OffloadSigning_EnableLogging lib custom_key cert ctx w :
  EnableLogging (globals (OffloadSigning lib custom_key cert ctx w).2)
  = logging_requested w.
Proof.
  unfold_offload. unfold logging_requested.
  exec.
  all: try serve_facts.
  all: repeat match goal with H : globals _ = _ |- _ => rewrite H end; cbn.
  all: try match goal with H : environ _ !! _ = _ |- _ => rewrite H end.
  all: try done.
Qed.

Lemma OffloadSigning_unsupported lib custom_key cert ctx w x :
  PEM_read_bio_X509_ret lib cert = Some x →
  algor (cert_key x) ≠ EVP_PKEY_RSA →
  algor (cert_key x) ≠ EVP_PKEY_EC →
  (OffloadSigning lib custom_key cert ctx w).1 = Val 0 ∧
  ssl_ctxs (OffloadSigning lib custom_key cert ctx w).2 = ssl_ctxs w.
Proof.
  intros Hx Hrsa Hec. unfold_offload.
  exec.
  all: try done.
  all: match goal with
       | H : ServeTLS ?l ?k ?c ?y ?w0 = _ |- _ =>
           destruct (ServeTLS_unsupported l k c y w0 x Hx Hrsa Hec) as [U1 U2];
           rewrite H in U1, U2; cbn in U1, U2
       end.
  all: by simplify_eq.
Qed.

Lemma OffloadSigning_installed lib custom_key cert ctx w w' :
  OffloadSigning lib custom_key cert ctx w = (Val 1, w') →
  ∃ c p x pk,
    ssl_ctxs w' !! ctx = Some c ∧
    private_key c = Some p ∧ certificate c = Some x ∧
    (∃ c0, ssl_ctxs w !! ctx = Some c0 ∧
           method_version c = method_version c0 ∧
           min_proto_version c =
             if method_version c0 =? TLS_ANY_VERSION then TLS1_3_VERSION
             else min_proto_version c0) ∧
    PEM_read_bio_X509_ret lib cert = Some x ∧
    pkeys w' !! p = Some pk ∧
    pk_pub pk = cert_key x ∧
    (pk_type pk = EVP_PKEY_RSA ∨ pk_type pk = EVP_PKEY_EC) ∧
    is_Some (pk_engine pk) ∧
    pk_engine pk = custom_engine (globals w') ∧
    (GetCustomKey p w').1 = Val custom_key.
Proof.
  unfold_offload.
  exec.
  all: try done.
  all: intros [= <-].
  all: repeat match goal with
         | H : negb _ = false |- _ => apply negb_false_iff in H
         end; simplify_eq.
  all: serve_facts.
  all: match goal with
       | H : ServeTLS _ _ _ _ _ = (Val true, _) |- _ =>
           apply ServeTLS_installed in H
             as (c & p & x & pk & ? & ? & ? & ? & ? & Hpk & ? & ? & Heng & Hget)
       end.
  all: exists c, p, x, pk; cbn in *.
  all: erewrite (GetCustomKey_found p pk) by done.
  all: erewrite (GetCustomKey_found p pk) in Hget by done.
  all: repeat match goal with H : globals _ = _ |- _ => rewrite H in * end; cbn in *.
  all: rewrite Heng.
  all: repeat match goal with H : custom_engine _ = _ |- _ => rewrite H end.
  all: split_and!; try done.
  all: match goal with
       | H : globals ?w0 = _ |- context [globals ?w0] => rewrite H
       end; cbn; exact Hget.
Qed.

(** *** The signing thunk *)

Lemma GetCustomKey_logged pkey message w :
  GetCustomKey pkey (logged message w) = ((GetCustomKey pkey w).1, logged message w).
Proof. by apply GetCustomKey_frame. Qed.

Lemma CustomDigestSign_no_key ctx sig sig_len tbs tbs_len w :
  pctx_pkey (md_pctx ctx) = None →
  CustomDigestSign ctx sig sig_len tbs tbs_len w =
    (Val 0, set_stderr (fun e => e ++ [ErrText ("Could not get EVP_PKEY." +:+ nl)])
              (logged "calling CustomDigestSign" w)).
Proof.
  intros H. unfold CustomDigestSign.
  rewrite (bind_run _ _ _ _ _ (LogInfo_run _ w)), H. by unfold_m.
Qed.

Lemma CustomDigestSign_no_handle ctx sig sig_len tbs tbs_len w pkey :
  pctx_pkey (md_pctx ctx) = Some pkey →
  (GetCustomKey pkey w).1 = Val None →
  CustomDigestSign ctx sig sig_len tbs tbs_len w =
    (Val 0, set_stderr
              (fun e => e ++ [ErrText ("Could not get CustomKey from EVP_PKEY." +:+ nl)])
              (logged "calling CustomDigestSign" w)).
Proof.
  intros H Hk. unfold CustomDigestSign.
  rewrite (bind_run _ _ _ _ _ (LogInfo_run _ w)), H.
  pose proof (GetCustomKey_logged pkey "calling CustomDigestSign" w) as Hg.
  rewrite Hk in Hg. rewrite (bind_run _ _ _ _ _ Hg). by unfold_m.
Qed.

Lemma CustomDigestSign_dangling ctx sig sig_len tbs tbs_len w pkey key :
  pctx_pkey (md_pctx ctx) = Some pkey →
  (GetCustomKey pkey w).1 = Val (Some key) →
  custom_keys w !! key = None →
  (CustomDigestSign ctx sig sig_len tbs tbs_len w).1 = Crash ∧
  events (CustomDigestSign ctx sig sig_len tbs tbs_len w).2 = events w ∧
  memory (CustomDigestSign ctx sig sig_len tbs tbs_len w).2 = memory w.
Proof.
  intros H Hk Hck. unfold CustomDigestSign.
  rewrite (bind_run _ _ _ _ _ (LogInfo_run _ w)), H.
  pose proof (GetCustomKey_logged pkey "calling CustomDigestSign" w) as Hg.
  rewrite Hk in Hg. rewrite (bind_run _ _ _ _ _ Hg).
  unfold Sign. unfold_m. cbn.
  destruct (EnableLogging (globals w)); cbn; by rewrite Hck.
Qed.

Lemma CustomDigestSign_signs ctx sig sig_len tbs tbs_len w pkey key ck :
  pctx_pkey (md_pctx ctx) = Some pkey →
  (GetCustomKey pkey w).1 = Val (Some key) →
  custom_keys w !! key = Some ck →
  (CustomDigestSign ctx sig sig_len tbs tbs_len w).1 =
    Val (sign_func ck sig sig_len tbs tbs_len (memory w)).1 ∧
  memory (CustomDigestSign ctx sig sig_len tbs tbs_len w).2 =
    (sign_func ck sig sig_len tbs tbs_len (memory w)).2 ∧
  events (CustomDigestSign ctx sig sig_len tbs tbs_len w).2 =
    events w ++ [SignCall key sig sig_len tbs tbs_len].
Proof.
  intros H Hk Hck. unfold CustomDigestSign.
  rewrite (bind_run _ _ _ _ _ (LogInfo_run _ w)), H.
  pose proof (GetCustomKey_logged pkey "calling CustomDigestSign" w) as Hg.
  rewrite Hk in Hg. rewrite (bind_run _ _ _ _ _ Hg).
  unfold Sign. unfold_m. cbn.
  destruct (EnableLogging (globals w)) eqn:Hlog; cbn; rewrite Hck; cbn;
    destruct (sign_func ck sig sig_len tbs tbs_len (memory w)); cbn;
    by rewrite ?Hlog.
Qed.

(** Attaching a handle touches one key object and nothing else. *)
Lemma SetCustomKey_attached lib pkey key w w' :
  SetCustomKey lib pkey (Some key) w = (Val true, w') →
  (GetCustomKey pkey w').1 = Val (Some key) ∧
  (∀ q, q ≠ pkey → pkeys w' !! q = pkeys w !! q) ∧
  globals w' = globals w ∧ events w' = events w ∧
  custom_keys w' = custom_keys w ∧ memory w' = memory w.
Proof.
  unfold SetCustomKey, CRYPTO_set_ex_data.
  exec. all: try done.
  all: intros [= <-].
  all: erewrite GetCustomKey_found by (cbn; apply lookup_insert_eq).
  all: cbn.
  all: repeat match goal with
         | H : (?a =? ?b) = _ |- context [?a =? ?b] => rewrite H
         end.
  all: cbn; rewrite ?lookup_insert_eq.
  all: split_and!; try done.
  all: intros q Hq; by rewrite lookup_insert_ne.
Qed.

(** *** The registrar across calls *)

Lemma InitExData_runs_app w w' l :
  events w' = events w ++ l →
  InitExData_runs w' = (InitExData_runs w + length (List.filter is_rsa_allocation l))%nat.
Proof. unfold InitExData_runs. intros ->. by rewrite List.filter_app, length_app. Qed.

(** A call that finds the engine in place leaves the registrar alone. *)
Lemma OffloadSigning_initialised lib custom_key cert ctx w e :
  custom_engine (globals w) = Some e →
  let w' := (OffloadSigning lib custom_key cert ctx w).2 in
  events w' = events w ∧
  rsa_ex_index (globals w') = rsa_ex_index (globals w) ∧
  ec_ex_index (globals w') = ec_ex_index (globals w) ∧
  custom_engine (globals w') = Some e.
Proof.
  intros He. unfold_offload.
  exec_with ltac:(rewrite ?He).
  all: try serve_facts.
  all: repeat match goal with
         | H : globals ?w0 = _ |- context [globals ?w0] => rewrite H
         end; cbn.
  all: try done.
Qed.

(** A call that finds no engine allocates the two indices, once. *)
Lemma OffloadSigning_uninitialised lib custom_key cert ctx w :
  custom_engine (globals w) = None →
  events (OffloadSigning lib custom_key cert ctx w).2 =
    events w ++ [RSA_get_ex_new_index (RSA_get_ex_new_index_ret lib);
                 EC_KEY_get_ex_new_index (EC_KEY_get_ex_new_index_ret lib)].
Proof.
  intros He. unfold_offload.
  exec_with ltac:(rewrite ?He).
  all: try serve_facts.
  all: repeat match goal with
         | H : events ?w0 = _ |- context [events ?w0] => rewrite H
         end; cbn.
  all: rewrite <- ?app_assoc; try done.
Qed.

Lemma OffloadSigning_success_engine lib custom_key cert ctx w :
  (OffloadSigning lib custom_key cert ctx w).1 = Val 1 →
  is_Some (custom_engine (globals (OffloadSigning lib custom_key cert ctx w).2)).
Proof.
  destruct (OffloadSigning lib custom_key cert ctx w) as [r w'] eqn:E.
  cbn. intros ->.
  apply OffloadSigning_installed in E as (c & p & x & pk & ? & ? & ? & ? & ? & ? & ? & ? & Hs & Heq & ?).
  by rewrite <- Heq.
Qed.

Lemma run_initialised calls : ∀ w e,
  custom_engine (globals w) = Some e →
  InitExData_runs (run calls w) = InitExData_runs w ∧
  rsa_ex_index (globals (run calls w)) = rsa_ex_index (globals w) ∧
  ec_ex_index (globals (run calls w)) = ec_ex_index (globals w) ∧
  custom_engine (globals (run calls w)) = Some e.
Proof.
  induction calls as [|c cs IH]; intros w e He; [done|].
  cbn [run]. unfold step.
  pose proof (OffloadSigning_initialised (call_lib c) (call_key c) (call_cert c)
                (call_ctx c) w e He) as (Hev & Hr & Hec & Heng).
  destruct (OffloadSigning _ _ _ _ w) as [[z|] w'] eqn:E; cbn [fst snd] in *.
  - destruct (IH w' e Heng) as (-> & -> & -> & ->).
    unfold InitExData_runs. by rewrite Hev, Hr, Hec.
  - unfold InitExData_runs. by rewrite Hev, Hr, Hec.
Qed.


(** *** Who logs, and when *)

Lemma CreateCustomKey_stdout f env w :
  stdout (CreateCustomKey f (set_environ env w)).2 =
    stdout w ++ told (EnableLogging (globals w)) [log_line ("In CreateCustomKey" +:+ nl)].
Proof.
  unfold CreateCustomKey, told. exec; cbn.
  all: repeat match goal with H : EnableLogging _ = _ |- _ => rewrite H end.
  all: by rewrite ?app_nil_r.
Qed.

Lemma DestroyCustomKey_stdout key env w :
  stdout (DestroyCustomKey key (set_environ env w)).2 =
    stdout w ++ told (EnableLogging (globals w)) [log_line ("In DestroyCustomKey" +:+ nl)].
Proof.
  unfold DestroyCustomKey, told. exec; cbn.
  all: repeat match goal with H : EnableLogging _ = _ |- _ => rewrite H end.
  all: by rewrite ?app_nil_r.
Qed.

Lemma CustomDigestSign_stdout ctx sig sig_len tbs tbs_len env w :
  ∃ rest,
    stdout (CustomDigestSign ctx sig sig_len tbs tbs_len (set_environ env w)).2 =
      stdout w ++ told (EnableLogging (globals w))
                       (log_line "calling CustomDigestSign" :: rest).
Proof.
  unfold CustomDigestSign, GetCustomKey, Sign, told.
  destruct (EnableLogging (globals w)) eqn:Hlog.
  all: exec_with ltac:(rewrite ?Hlog).
  all: rewrite <- ?app_assoc; cbn.
  all: try (by eexists; rewrite ?app_nil_r).
  all: by exists []; rewrite ?app_nil_r.
Qed.


(** With the flag off nothing is printed. *)
Lemma ConfigureCertAndCustomKey_quiet lib custom_key cert w :
  EnableLogging (globals w) = false →
  stdout (ConfigureCertAndCustomKey lib custom_key cert w).2 = stdout w.
Proof.
  intros Hq. unfold_configure.
  exec_with ltac:(rewrite ?Hq).
  all: done.
Qed.

Lemma ServeTLS_quiet lib custom_key cert ctx w :
  EnableLogging (globals w) = false →
  stdout (ServeTLS lib custom_key cert ctx w).2 = stdout w.
Proof.
  intros Hq. unfold ServeTLS.
  rewrite !(bind_run _ _ _ _ _ (LogInfo_run _ _)).
  destruct (BIO_new_mem_buf_ok lib); cbn [negb];
    [|rewrite (bind_run _ _ _ _ _ (LogInfo_run _ _)); unfold_m; cbn; by rewrite Hq].
  rewrite (bind_run _ _ _ _ _ (LogInfo_run _ _)).
  unfold bind at 1.
  match goal with
  | |- context [ConfigureCertAndCustomKey ?l ?k ?y ?w0] =>
      pose proof (ConfigureCertAndCustomKey_quiet l k y w0 Hq) as Q;
      pose proof (ConfigureCertAndCustomKey_frame l k y w0) as F;
      destruct (ConfigureCertAndCustomKey l k y w0) as [res w1]
  end; cbn in Q, F; destruct F as (Hg & _). rewrite !Hq in Q.
  assert (EnableLogging (globals w1) = false) as Hq1 by (by rewrite Hg).
  unfold SSL_CTX_use_PrivateKey, SSL_CTX_use_certificate,
    SSL_CTX_set_min_proto_version, EVP_PKEY_up_ref, EVP_PKEY_free.
  exec_with ltac:(rewrite ?Hq1).
  all: done.
Qed.

Lemma OffloadSigning_quiet lib custom_key cert ctx w :
  environ w !! LOGGING_VARIABLE = None →
  stdout (OffloadSigning lib custom_key cert ctx w).2 = stdout w.
Proof.
  intros Hv. unfold_offload.
  exec_with ltac:(
    first [ rewrite Hv
          | match goal with
            | H : ServeTLS ?l ?k ?c ?y ?w0 = (_, ?w1) |- _ =>
                lazymatch goal with
                | _ : globals w1 = _ |- _ => fail
                | _ => pose proof (ServeTLS_quiet l k c y w0 eq_refl) as Q;
                       pose proof (ServeTLS_frame l k c y w0) as F;
                       rewrite H in Q, F; cbn in Q, F; destruct F as (?Hg & _)
                end
            end
          | match goal with
            | Hg : globals ?w1 = _ |- context [globals ?w1] => rewrite Hg
            end ]).
  all: try done.
Qed.

(** What is printed is added at the end of the stream. *)
Lemma ConfigureCertAndCustomKey_appends lib custom_key cert w :
  ∃ l, stdout (ConfigureCertAndCustomKey lib custom_key cert w).2 = stdout w ++ l.
Proof.
  destruct (EnableLogging (globals w)) eqn:Hq;
    [|exists []; rewrite app_nil_r; by apply ConfigureCertAndCustomKey_quiet].
  unfold_configure.
  exec_with ltac:(rewrite ?Hq).
  all: rewrite <- ?app_assoc.
  all: first [by eexists | exists []; by rewrite app_nil_r].
Qed.

Lemma ServeTLS_appends lib custom_key cert ctx w :
  ∃ l, stdout (ServeTLS lib custom_key cert ctx w).2 = stdout w ++ l.
Proof.
  destruct (EnableLogging (globals w)) eqn:Hq;
    [|exists []; rewrite app_nil_r; by apply ServeTLS_quiet].
  unfold ServeTLS.
  rewrite !(bind_run _ _ _ _ _ (LogInfo_run _ _)).
  destruct (BIO_new_mem_buf_ok lib); cbn [negb];
    [|rewrite (bind_run _ _ _ _ _ (LogInfo_run _ _)); unfold_m; cbn; rewrite Hq;
      rewrite <- ?app_assoc; by eexists].
  rewrite (bind_run _ _ _ _ _ (LogInfo_run _ _)).
  unfold bind at 1.
  match goal with
  | |- context [ConfigureCertAndCustomKey ?l ?k ?y ?w0] =>
      destruct (ConfigureCertAndCustomKey_appends l k y w0) as [l1 A];
      pose proof (ConfigureCertAndCustomKey_frame l k y w0) as F;
      destruct (ConfigureCertAndCustomKey l k y w0) as [res w1]
  end; cbn in A, F; destruct F as (Hg & _). rewrite !Hq in A.
  assert (EnableLogging (globals w1) = true) as Hq1 by (by rewrite Hg).
  unfold SSL_CTX_use_PrivateKey, SSL_CTX_use_certificate,
    SSL_CTX_set_min_proto_version, EVP_PKEY_up_ref, EVP_PKEY_free.
  exec_with ltac:(rewrite ?Hq1).
  all: rewrite ?A; rewrite <- ?app_assoc.
  all: by eexists.
Qed.

Lemma OffloadSigning_stdout lib custom_key cert ctx w :
  ∃ rest,
    stdout (OffloadSigning lib custom_key cert ctx w).2 =
      stdout w ++ told (logging_requested w)
                       (log_line "entering offload function" :: rest).
Proof.
  unfold logging_requested, told.
  destruct (environ w !! LOGGING_VARIABLE) as [v|] eqn:Hv.
  2:{ exists []. cbn. rewrite app_nil_r. by apply OffloadSigning_quiet. }
  rewrite bool_decide_eq_true_2 by eauto.
  unfold_offload.
  exec_with ltac:(
    first [ rewrite Hv
          | match goal with
            | H : ServeTLS ?l ?k ?c ?y ?w0 = (_, ?w1) |- _ =>
                lazymatch goal with
                | _ : globals w1 = _ |- _ => fail
                | _ => destruct (ServeTLS_appends l k c y w0) as [?l A];
                       pose proof (ServeTLS_frame l k c y w0) as F;
                       rewrite H in A, F; cbn in A, F; destruct F as (?Hg & _)
                end
            end
          | match goal with
            | Hg : globals ?w1 = _ |- context [globals ?w1] => rewrite Hg
            end ]).
  all: repeat match goal with
         | A : stdout ?w1 = _ |- context [stdout ?w1] => rewrite A
         end.
  all: rewrite <- ?app_assoc; cbn.
  all: by eexists.
Qed.

(** The handle functions and the thunk read the flag and do not write it;
    with the flag off they print nothing. *)
Lemma perform_globals o w : globals (perform o w).2 = globals w.
Proof.
  destruct o; unfold perform, CreateCustomKey, DestroyCustomKey, CustomDigestSign,
    GetCustomKey, Sign.
  all: exec.
  all: done.
Qed.

Lemma perform_quiet o w :
  EnableLogging (globals w) = false → stdout (perform o w).2 = stdout w.
Proof.
  intros Hq.
  destruct o; unfold perform, CreateCustomKey, DestroyCustomKey, CustomDigestSign,
    GetCustomKey, Sign.
  all: exec_with ltac:(rewrite ?Hq).
  all: done.
Qed.

Lemma carry_out_globals ops : ∀ w, globals (carry_out ops w) = globals w.
Proof.
  induction ops as [|o os IH]; intros w; [done|].
  cbn [carry_out]. pose proof (perform_globals o w) as H.
  destruct (perform o w) as [[u|] w1]; cbn [snd] in H; [|done].
  by rewrite IH.
Qed.

Lemma carry_out_quiet ops : ∀ w,
  EnableLogging (globals w) = false → stdout (carry_out ops w) = stdout w.
Proof.
  induction ops as [|o os IH]; intros w Hq; [done|].
  cbn [carry_out]. pose proof (perform_globals o w) as Hg.
  pose proof (perform_quiet o w Hq) as Hs.
  destruct (perform o w) as [[u|] w1]; cbn [snd] in Hg, Hs; [|done].
  rewrite IH; [done|]. by rewrite Hg.
Qed.

Lemma set_environ_same w : set_environ (environ w) w = w.
Proof. by destruct w. Qed.

(** *** When the call does not return *)

Lemma ConfigureCertAndCustomKey_returns lib custom_key x w :
  (ConfigureCertAndCustomKey lib custom_key (Some x) w).1 ≠ Crash.
Proof.
  unfold_configure.
  exec. all: done.
Qed.

Lemma ServeTLS_returns lib custom_key cert ctx w :
  is_Some (ssl_ctxs w !! ctx) →
  (ServeTLS lib custom_key cert ctx w).1 = Crash →
  BIO_new_mem_buf_ok lib = true ∧ PEM_read_bio_X509_ret lib cert = None.
Proof.
  intros [c0 Hctx].
  destruct (BIO_new_mem_buf_ok lib) eqn:Hbio;
    [|unfold ServeTLS; rewrite Hbio; exec; done].
  destruct (PEM_read_bio_X509_ret lib cert) as [x|] eqn:Hx; [|done].
  intros Hcrash. exfalso. revert Hcrash.
  unfold ServeTLS. rewrite Hbio, Hx. cbn [negb].
  rewrite !(bind_run _ _ _ _ _ (LogInfo_run _ _)).
  unfold bind at 1.
  destruct (ConfigureCertAndCustomKey _ _ _ _) as [[[p|]|] w1] eqn:E.
  2:{ rewrite (bind_run _ _ _ _ _ (LogInfo_run _ _)). by unfold_m. }
  2:{ pose proof (ConfigureCertAndCustomKey_returns lib custom_key x
        (logged "create custom key"
           (logged "create x509 using the provided cert"
              (logged "calling ServeTLS" w)))) as N.
      by rewrite E in N. }
  match type of E with
  | ConfigureCertAndCustomKey ?l ?k ?y ?w0 = _ =>
      pose proof (ConfigureCertAndCustomKey_frame l k y w0) as F
  end.
  rewrite E in F. cbn in F. destruct F as (_ & _ & _ & _ & Hc & _ & _).
  destruct (ConfigureCertAndCustomKey_new _ _ _ _ _ _ E) as [_ Hnew].
  assert (private_key c0 ≠ Some p) as Hne.
  { intros Hp. apply Hnew. eapply held_keys_spec; [exact Hctx|exact Hp]. }
  apply ConfigureCertAndCustomKey_bound in E
    as (x' & pk & _ & Hpk & _ & _ & _ & _ & Hrefs & _).
  unfold SSL_CTX_use_PrivateKey, SSL_CTX_use_certificate,
    SSL_CTX_set_min_proto_version, EVP_PKEY_up_ref, EVP_PKEY_free.
  exec_with ltac:(rewrite ?Hpk, ?Hrefs, ?Hc, ?Hctx, ?(released_other _ _ p Hne)).
  all: done.
Qed.

Lemma OffloadSigning_crash_iff lib custom_key cert ctx w :
  is_Some (ssl_ctxs w !! ctx) →
  (OffloadSigning lib custom_key cert ctx w).1 = Crash ↔
  engine_ready lib w ∧ BIO_new_mem_buf_ok lib = true ∧
  PEM_read_bio_X509_ret lib cert = None.
Proof.
  intros Hctx. split.
  - unfold_offload. unfold engine_ready, init_succeeds.
    exec. all: try done.
    all: intros _.
    all: match goal with
         | H : ServeTLS ?l ?k ?c ?y ?w0 = (Crash, _) |- _ =>
             destruct (ServeTLS_returns l k c y w0 Hctx) as [U1 U2];
             [by rewrite H|]
         end.
    all: split; [|done].
    all: try (left; by eauto).
    all: right.
    all: repeat match goal with
           | H : negb _ = false |- _ => apply negb_false_iff in H
           | H : _ || _ = false |- _ => apply orb_false_iff in H as [? ?]
           | H : (_ <? _) = false |- _ => apply Z.ltb_ge in H
           end.
    all: split_and!; try done; by eauto.
  - intros (Hready & Hbio & Hx). unfold_offload.
    exec. 
    all: try match goal with
         | H : ServeTLS ?l ?k ?c ?y ?w0 = _ |- _ =>
             pose proof (ServeTLS_malformed l k c y w0 Hbio Hx) as U;
             rewrite H in U; cbn in U
         end.
    all: try by simplify_eq.
    all: exfalso; destruct Hready as [[? ?]|(? & ? & [? ?] & [? ?] & ? & ?)];
      try congruence.
    all: repeat match goal with
           | H : negb _ = true |- _ => apply negb_true_iff in H
           | H : _ || _ = true |- _ => apply orb_true_iff in H as [?|?]
           | H : (_ <? _) = true |- _ => apply Z.ltb_lt in H
           end; try lia; try congruence.
Qed.

Lemma OffloadSigning_returns_flag lib custom_key cert ctx w z :
  (OffloadSigning lib custom_key cert ctx w).1 = Val z → z = 0 ∨ z = 1.
Proof.
  unfold_offload. exec.
  all: intros [= <-]; auto.
Qed.

(** ** The claims *)

(** C1. The signing thunk: when the signing context holds no key, or the
    key has no handle attached, [CustomDigestSign] returns 0, writes no
    memory (neither signature bytes nor the length) and calls no signer;
    otherwise it calls the handle's [Sign] once with the very buffers and
    lengths it was given and returns what [Sign] returned. *)
Theorem CustomDigestSign_contract (ctx : EVP_MD_CTX) (sig sig_len tbs : addr)
    (tbs_len : Z) (w : World) :
  let r := CustomDigestSign ctx sig sig_len tbs tbs_len w in
  (pctx_pkey (md_pctx ctx) = None →
   r.1 = Val 0 ∧ memory r.2 = memory w ∧ events r.2 = events w) ∧
  (∀ pkey, pctx_pkey (md_pctx ctx) = Some pkey →
   (GetCustomKey pkey w).1 = Val None →
   r.1 = Val 0 ∧ memory r.2 = memory w ∧ events r.2 = events w) ∧
  (∀ pkey key ck, pctx_pkey (md_pctx ctx) = Some pkey →
   (GetCustomKey pkey w).1 = Val (Some key) →
   custom_keys w !! key = Some ck →
   r.1 = Val (sign_func ck sig sig_len tbs tbs_len (memory w)).1 ∧
   memory r.2 = (sign_func ck sig sig_len tbs tbs_len (memory w)).2 ∧
   events r.2 = events w ++ [SignCall key sig sig_len tbs tbs_len]).
Proof.
  intros r. subst r. split; [|split].
  - intros H. by rewrite (CustomDigestSign_no_key _ _ _ _ _ _ H).
  - intros pkey H Hk. by rewrite (CustomDigestSign_no_handle _ _ _ _ _ _ _ H Hk).
  - intros pkey key ck H Hk Hck. by apply (CustomDigestSign_signs _ _ _ _ _ _ pkey).
Qed.

Lemma CustomDigestSign_contract_witness :
  (CustomDigestSign (signing_context 0%nat) 1000 2000 3000 32 two_bindings).1 = Val 1 ∧
  memory (CustomDigestSign (signing_context 0%nat) 1000 2000 3000 32 two_bindings).2 2000 = 64 ∧
  events (CustomDigestSign (signing_context 0%nat) 1000 2000 3000 32 two_bindings).2
    = events two_bindings ++ [SignCall 10%nat 1000 2000 3000 32].
Proof.
  destruct (CustomDigestSign_contract (signing_context 0%nat) 1000 2000 3000 32 two_bindings)
    as (_ & _ & H).
  destruct (H 0%nat 10%nat (mkCustomKey fixed_signer)) as (H1 & H2 & H3);
    [reflexivity | vm_compute; reflexivity | vm_compute; reflexivity |].
  split; [exact H1|]. split; [|exact H3].
  rewrite H2. reflexivity.
Defined.

(** C3 (amended). Whenever [OffloadSigning] returns 1, the TLS context
    carries the certificate that was passed in together with the bound key:
    a native key with the certificate's public key, associated with the
    custom engine, with the caller's handle attached.  Its minimum protocol
    version is TLS 1.3 when the context was created with a method that
    negotiates the TLS version; on any other context the floor is what it
    was.  The method of the context is never changed. *)
Theorem OffloadSigning_success_installs (lib : OpenSSL) (custom_key : option loc)
    (cert : string) (ctx : loc) (w : World) :
  let r := OffloadSigning lib custom_key cert ctx w in
  r.1 = Val 1 →
  ∃ c0 c p x pk,
    ssl_ctxs w !! ctx = Some c0 ∧
    ssl_ctxs r.2 !! ctx = Some c ∧
    method_version c = method_version c0 ∧
    (method_version c0 = TLS_ANY_VERSION → min_proto_version c = TLS1_3_VERSION) ∧
    (method_version c0 ≠ TLS_ANY_VERSION →
     min_proto_version c = min_proto_version c0) ∧
    certificate c = Some x ∧ PEM_read_bio_X509_ret lib cert = Some x ∧
    private_key c = Some p ∧ pkeys r.2 !! p = Some pk ∧
    pk_pub pk = cert_key x ∧
    (pk_type pk = EVP_PKEY_RSA ∨ pk_type pk = EVP_PKEY_EC) ∧
    is_Some (pk_engine pk) ∧ pk_engine pk = custom_engine (globals r.2) ∧
    (GetCustomKey p r.2).1 = Val custom_key.
Proof.
  intros r. subst r.
  destruct (OffloadSigning lib custom_key cert ctx w) as [r w'] eqn:E.
  cbn [fst snd]. intros ->.
  apply OffloadSigning_installed in E
    as (c & p & x & pk & ? & ? & ? & (c0 & ? & ? & Hmin) & ? & ? & ? & ? & ? & ? & ?).
  exists c0, c, p, x, pk. split_and!; try done.
  - intros Hm. by rewrite Hmin, Hm.
  - intros Hm%Z.eqb_neq. by rewrite Hmin, Hm.
Qed.

Lemma OffloadSigning_success_installs_witness :
  ∃ c, ssl_ctxs (OffloadSigning healthy (Some 10%nat) EC_PEM 1%nat (process_start ∅)).2
         !! 1%nat = Some c ∧
       min_proto_version c = TLS1_3_VERSION ∧
       certificate c = Some ec_certificate.
Proof.
  destruct (OffloadSigning_success_installs healthy (Some 10%nat) EC_PEM 1%nat
              (process_start ∅))
    as (c0 & c & p & x & pk & H0 & H1 & _ & H2 & _ & H3 & H4 & _);
    [vm_compute; reflexivity|].
  exists c. split; [exact H1|]. split.
  - apply H2. vm_compute in H0. injection H0 as <-. reflexivity.
  - rewrite H3, <- H4. reflexivity.
Defined.

(** C3 (as stated, refuted). On a context that is fixed to TLS 1.2 the
    library accepts the requested floor without storing it: the call
    returns 1, key and certificate are installed, and the minimum protocol
    version of the context is still 0. *)
Lemma floor_not_raised_on_fixed_version_context :
  let r := OffloadSigning healthy (Some 10%nat) EC_PEM 1%nat fixed_version_process in
  r.1 = Val 1 ∧
  ∃ c, ssl_ctxs r.2 !! 1%nat = Some c ∧
       certificate c = Some ec_certificate ∧
       is_Some (private_key c) ∧
       min_proto_version c = 0 ∧
       min_proto_version c ≠ TLS1_3_VERSION.
Proof.
  split; [vm_compute; reflexivity|].
  eexists. split; [vm_compute; reflexivity|].
  split; [reflexivity|]. split; [eauto|]. split; [reflexivity|].
  vm_compute. discriminate.
Qed.

(** C4. A certificate whose public key is neither RSA nor EC cannot be
    bound: [OffloadSigning] returns 0 and the TLS contexts are as they were
    (no key, no certificate, no protocol version installed). *)
Theorem unsupported_family_rejected (lib : OpenSSL) (custom_key : option loc)
    (cert : string) (ctx : loc) (w : World) (x : X509) :
  PEM_read_bio_X509_ret lib cert = Some x →
  algor (cert_key x) ≠ EVP_PKEY_RSA →
  algor (cert_key x) ≠ EVP_PKEY_EC →
  let r := OffloadSigning lib custom_key cert ctx w in
  r.1 = Val 0 ∧ ssl_ctxs r.2 = ssl_ctxs w.
Proof.
  intros Hx Hrsa Hec r. subst r.
  by apply (OffloadSigning_unsupported lib custom_key cert ctx w x).
Qed.

Lemma unsupported_family_rejected_witness :
  (OffloadSigning healthy (Some 10%nat) ED25519_PEM 1%nat (process_start ∅)).1 = Val 0 ∧
  ssl_ctxs (OffloadSigning healthy (Some 10%nat) ED25519_PEM 1%nat (process_start ∅)).2
    = ssl_ctxs (process_start ∅).
Proof.
  apply (unsupported_family_rejected healthy (Some 10%nat) ED25519_PEM 1%nat
           (process_start ∅) ed25519_certificate);
    [reflexivity | vm_compute; discriminate | vm_compute; discriminate].
Defined.

(** C5 (defect in the code). A text that is not a certificate makes
    [PEM_read_bio_X509] return null; [ServeTLS] passes that null on, and
    [X509_get_X509_PUBKEY] dereferences it.  The call does not return 0: it
    is undefined. *)
Theorem malformed_certificate_first_call :
  PEM_read_bio_X509_ret healthy NOT_PEM = None ∧
  (OffloadSigning healthy (Some 10%nat) NOT_PEM 1%nat (process_start ∅)).1 = Crash.
Proof. split; vm_compute; reflexivity. Qed.

(** C2 (defect in the code). With the engine in place after a successful
    first call, a second call whose certificate text does not parse neither
    returns 1 nor returns 0. *)
Theorem malformed_certificate_later_call :
  let w := (OffloadSigning healthy (Some 10%nat) EC_PEM 1%nat (process_start ∅)).2 in
  is_Some (custom_engine (globals w)) ∧
  (OffloadSigning healthy (Some 11%nat) NOT_PEM 2%nat w).1 = Crash.
Proof. split; [vm_compute; eauto | vm_compute; reflexivity]. Qed.

(** C6 (amended). [InitExData] is guarded by the engine pointer: a call that
    finds the engine set allocates nothing, so after a successful
    initialisation no sequence of calls runs [InitExData] again or changes
    the two indices or the engine; a call that finds the engine unset runs
    [InitExData] exactly once; and a call that returns 1 leaves the engine
    set. *)
Theorem InitExData_guarded_by_engine (calls : list Call) (c : Call) (w : World) :
  (is_Some (custom_engine (globals w)) →
   InitExData_runs (run calls w) = InitExData_runs w ∧
   rsa_ex_index (globals (run calls w)) = rsa_ex_index (globals w) ∧
   ec_ex_index (globals (run calls w)) = ec_ex_index (globals w) ∧
   custom_engine (globals (run calls w)) = custom_engine (globals w)) ∧
  (custom_engine (globals w) = None →
   InitExData_runs (step c w).2 = S (InitExData_runs w)) ∧
  ((step c w).1 = Val 1 → is_Some (custom_engine (globals (step c w).2))).
Proof.
  split; [|split].
  - intros [e He]. rewrite He. apply (run_initialised calls w e He).
  - intros He. unfold step.
    rewrite (InitExData_runs_app w _ _ (OffloadSigning_uninitialised _ _ _ _ w He)).
    cbn [List.filter is_rsa_allocation length]. lia.
  - unfold step. apply OffloadSigning_success_engine.
Qed.

Lemma InitExData_guarded_by_engine_witness :
  InitExData_runs (run retry_after_failure two_bindings) = InitExData_runs two_bindings.
Proof.
  apply (InitExData_guarded_by_engine retry_after_failure
           (mkCall healthy None EC_PEM 1%nat) two_bindings).
  vm_compute. eauto.
Defined.

(** C6 (as stated, refuted). A first call in which the engine cannot be
    created leaves the engine unset after the indices were allocated; the
    next call allocates them again. *)
Lemma InitExData_runs_again_after_failure :
  InitExData_runs (run retry_after_failure (process_start ∅)) = 2%nat.
Proof. vm_compute. reflexivity. Qed.
(** C7 (amended). The call enables logging exactly when the variable is
    present in the environment, whatever its value: a present empty value
    enables it, and an absent variable disables it.  From then on [LogInfo]
    prints exactly when the variable was present. *)
Theorem logging_gated_by_presence (lib : OpenSSL) (custom_key : option loc)
    (cert : string) (ctx : loc) (w : World) :
  let w' := (OffloadSigning lib custom_key cert ctx w).2 in
  (EnableLogging (globals w') = true ↔ is_Some (environ w !! LOGGING_VARIABLE)) ∧
  (environ w !! LOGGING_VARIABLE = Some "" → EnableLogging (globals w') = true) ∧
  (environ w !! LOGGING_VARIABLE = None → EnableLogging (globals w') = false) ∧
  (∀ message,
     stdout (LogInfo message w').2 =
       stdout w' ++ told (logging_requested w) [log_line message]).
Proof.
  intros w'. subst w'.
  pose proof (OffloadSigning_EnableLogging lib custom_key cert ctx w) as H.
  split_and!.
  - rewrite H. unfold logging_requested. apply bool_decide_eq_true.
  - intros Hv. rewrite H. unfold logging_requested. by rewrite Hv.
  - intros Hv. rewrite H. unfold logging_requested. by rewrite Hv.
  - intros message. rewrite LogInfo_run. cbn [snd]. unfold told.
    destruct (logging_requested w).
    + by apply logged_stdout_on.
    + rewrite app_nil_r. by apply logged_stdout_off.
Qed.

Lemma logging_gated_by_presence_witness :
  EnableLogging (globals (OffloadSigning healthy (Some 10%nat) EC_PEM 1%nat
                            (process_start {[ LOGGING_VARIABLE := "" ]})).2) = true.
Proof.
  apply (logging_gated_by_presence healthy (Some 10%nat) EC_PEM 1%nat
           (process_start {[ LOGGING_VARIABLE := "" ]})).
  vm_compute. reflexivity.
Defined.

(** C7 (as stated, refuted). With the variable absent the call disables
    logging and prints nothing. *)
Lemma logging_disabled_when_variable_absent :
  environ (process_start ∅) !! LOGGING_VARIABLE = None ∧
  EnableLogging (globals (OffloadSigning healthy (Some 10%nat) EC_PEM 1%nat
                            (process_start ∅)).2) = false ∧
  stdout (OffloadSigning healthy (Some 10%nat) EC_PEM 1%nat (process_start ∅)).2 = [].
Proof. split_and!; vm_compute; reflexivity. Qed.

(** C10. The logging flag is false in a process that has not called
    [OffloadSigning], and whatever the process does before its first call
    leaves it false and prints nothing, whatever the environment.  Every
    call recomputes the flag from the environment it finds, whatever the
    flag was, before it prints its first line: with the variable absent the
    call prints nothing, with the variable present its output starts with
    the line that announces the call.  From then on, whatever handles are
    made or destroyed, whatever is signed and however the environment
    changes, the flag is what that call made it, and what
    [CreateCustomKey], [DestroyCustomKey] and the signing thunk print is
    decided by the environment of that call. *)
Theorem logging_follows_last_OffloadSigning (lib : OpenSSL)
    (custom_key : option loc) (cert : string) (ctx : loc) (w0 : World)
    (ops : list Operation) :
  EnableLogging initial_globals = false ∧
  (∀ env ctxs keys m,
     let start := carry_out ops (initial_world env ctxs keys m) in
     EnableLogging (globals start) = false ∧ stdout start = []) ∧
  let w := (OffloadSigning lib custom_key cert ctx w0).2 in
  (∃ rest, stdout w = stdout w0 ++ told (logging_requested w0)
                        (log_line "entering offload function" :: rest)) ∧
  EnableLogging (globals w) = logging_requested w0 ∧
  let now := carry_out ops w in
  EnableLogging (globals now) = logging_requested w0 ∧
  (∀ f, stdout (CreateCustomKey f now).2 =
          stdout now ++ told (logging_requested w0)
                             [log_line ("In CreateCustomKey" +:+ nl)]) ∧
  (∀ key, stdout (DestroyCustomKey key now).2 =
            stdout now ++ told (logging_requested w0)
                               [log_line ("In DestroyCustomKey" +:+ nl)]) ∧
  (∀ c sig sig_len tbs tbs_len, ∃ rest,
     stdout (CustomDigestSign c sig sig_len tbs tbs_len now).2 =
       stdout now ++ told (logging_requested w0)
                          (log_line "calling CustomDigestSign" :: rest)).
Proof.
  split; [reflexivity|]. split.
  { intros env ctxs keys m start. subst start. split.
    - by rewrite carry_out_globals.
    - by rewrite carry_out_quiet. }
  intros w. split; [apply OffloadSigning_stdout|].
  pose proof (OffloadSigning_EnableLogging lib custom_key cert ctx w0) as H.
  fold w in H. split; [exact H|].
  intros now.
  assert (EnableLogging (globals now) = logging_requested w0) as Hnow.
  { subst now. by rewrite carry_out_globals. }
  split; [exact Hnow|]. rewrite <- Hnow.
  split_and!.
  - intros f. pose proof (CreateCustomKey_stdout f (environ now) now) as P.
    by rewrite set_environ_same in P.
  - intros key. pose proof (DestroyCustomKey_stdout key (environ now) now) as P.
    by rewrite set_environ_same in P.
  - intros c sig sig_len tbs tbs_len.
    pose proof (CustomDigestSign_stdout c sig sig_len tbs tbs_len (environ now) now) as P.
    by rewrite set_environ_same in P.
Qed.

(** C8. Asked without a place for a method, [EngineGetMethods] hands out the
    list of the two supported identifiers, EC and RSA, and returns 2; asked
    for EC or for RSA it stores the method override of that family and
    returns 1; asked for anything else it returns 0 and stores nothing. *)
Theorem EngineGetMethods_discovery (g : Globals) (nid : Z) :
  EngineGetMethods g false nid
    = mkDiscovery 2 None (Some [EVP_PKEY_EC; EVP_PKEY_RSA]) ∧
  EngineGetMethods g true EVP_PKEY_EC
    = mkDiscovery 1 (Some (custom_ec_pkey_method g)) None ∧
  EngineGetMethods g true EVP_PKEY_RSA
    = mkDiscovery 1 (Some (custom_rsa_pkey_method g)) None ∧
  (nid ≠ EVP_PKEY_EC → nid ≠ EVP_PKEY_RSA →
   EngineGetMethods g true nid = mkDiscovery 0 None None).
Proof.
  repeat split; try reflexivity.
  intros Hec Hrsa. unfold EngineGetMethods. cbn [negb].
  destruct (Z.eqb_spec nid EVP_PKEY_EC) as [->|_]; [done|].
  destruct (Z.eqb_spec nid EVP_PKEY_RSA) as [->|_]; [done|].
  reflexivity.
Qed.

Lemma EngineGetMethods_discovery_witness :
  EngineGetMethods initial_globals true NID_ED25519 = mkDiscovery 0 None None.
Proof.
  apply (EngineGetMethods_discovery initial_globals NID_ED25519);
    unfold NID_ED25519, EVP_PKEY_EC, EVP_PKEY_RSA; lia.
Defined.

(** C9. Isolation: with handle [hA] attached to key object [A] and handle
    [hB] attached to another key object [B], a signing-thunk invocation
    whose context holds [A] makes no call on [hB]; the only call it can
    make is [hA]'s [Sign], and it makes exactly that call when [hA] is
    live.  The same holds with the roles exchanged. *)
Theorem signing_isolated (lib : OpenSSL) (A B hA hB : loc) (w : World)
    (sig sig_len tbs : addr) (tbs_len : Z) :
  A ≠ B → hA ≠ hB →
  (SetCustomKey lib A (Some hA) w).1 = Val true →
  let w1 := (SetCustomKey lib A (Some hA) w).2 in
  (SetCustomKey lib B (Some hB) w1).1 = Val true →
  let w2 := (SetCustomKey lib B (Some hB) w1).2 in
  let on_A := CustomDigestSign (signing_context A) sig sig_len tbs tbs_len w2 in
  let on_B := CustomDigestSign (signing_context B) sig sig_len tbs tbs_len w2 in
  (∃ calls, events on_A.2 = events w2 ++ calls ∧
     (∀ e, e ∈ calls → e = SignCall hA sig sig_len tbs tbs_len) ∧
     (∀ s l t n, SignCall hB s l t n ∉ calls) ∧
     (is_Some (custom_keys w2 !! hA) →
      calls = [SignCall hA sig sig_len tbs tbs_len])) ∧
  (∃ calls, events on_B.2 = events w2 ++ calls ∧
     (∀ e, e ∈ calls → e = SignCall hB sig sig_len tbs tbs_len) ∧
     (∀ s l t n, SignCall hA s l t n ∉ calls) ∧
     (is_Some (custom_keys w2 !! hB) →
      calls = [SignCall hB sig sig_len tbs tbs_len])).
Proof.
  intros HAB Hh HA w1 HB w2 on_A on_B.
  destruct (SetCustomKey lib A (Some hA) w) as [rA wA] eqn:EA.
  cbn in HA. subst rA. subst w1.
  destruct (SetCustomKey lib B (Some hB) (_, wA).2) as [rB wB] eqn:EB.
  cbn in HB, EB. subst rB. subst w2.
  cbn [snd] in on_A, on_B.
  apply SetCustomKey_attached in EA as (HgA & _ & _ & _ & _ & _).
  apply SetCustomKey_attached in EB as (HgB & HpB & HglB & _ & _ & _).
  assert ((GetCustomKey A wB).1 = Val (Some hA)) as HgA'.
  { rewrite (GetCustomKey_frame A wA wB); [done| |by rewrite HglB..].
    apply HpB. done. }
  cbn [snd]. split.
  - destruct (custom_keys wB !! hA) as [ck|] eqn:Hck.
    + destruct (CustomDigestSign_signs (signing_context A) sig sig_len tbs tbs_len
                  wB A hA ck eq_refl HgA' Hck) as (_ & _ & Hev).
      exists [SignCall hA sig sig_len tbs tbs_len]. subst on_A.
      split_and!; [done| | |done].
      * intros e He%list_elem_of_singleton. exact He.
      * intros s l t n [=]%list_elem_of_singleton. congruence.
    + destruct (CustomDigestSign_dangling (signing_context A) sig sig_len tbs tbs_len
                  wB A hA eq_refl HgA' Hck) as (_ & Hev & _).
      exists []. subst on_A. rewrite app_nil_r.
      split_and!; [done| | |intros [? ?]; congruence].
      * by intros e ?%elem_of_nil.
      * by intros s l t n ?%elem_of_nil.
  - destruct (custom_keys wB !! hB) as [ck|] eqn:Hck.
    + destruct (CustomDigestSign_signs (signing_context B) sig sig_len tbs tbs_len
                  wB B hB ck eq_refl HgB Hck) as (_ & _ & Hev).
      exists [SignCall hB sig sig_len tbs tbs_len]. subst on_B.
      split_and!; [done| | |done].
      * intros e He%list_elem_of_singleton. exact He.
      * intros s l t n [=]%list_elem_of_singleton. congruence.
    + destruct (CustomDigestSign_dangling (signing_context B) sig sig_len tbs tbs_len
                  wB B hB eq_refl HgB Hck) as (_ & Hev & _).
      exists []. subst on_B. rewrite app_nil_r.
      split_and!; [done| | |intros [? ?]; congruence].
      * by intros e ?%elem_of_nil.
      * by intros s l t n ?%elem_of_nil.
Qed.

Lemma signing_isolated_witness :
  ∃ calls,
    events (CustomDigestSign (signing_context 0%nat) 1000 2000 3000 32
              (SetCustomKey healthy 1%nat (Some 11%nat)
                 (SetCustomKey healthy 0%nat (Some 10%nat) two_keys).2).2).2
    = events (SetCustomKey healthy 1%nat (Some 11%nat)
                (SetCustomKey healthy 0%nat (Some 10%nat) two_keys).2).2 ++ calls ∧
    ∀ s l t n, SignCall 11%nat s l t n ∉ calls.
Proof.
  destruct (signing_isolated healthy 0%nat 1%nat 10%nat 11%nat two_keys 1000 2000 3000 32)
    as [(calls & Hev & _ & Hnot & _) _];
    [lia | lia | vm_compute; reflexivity | vm_compute; reflexivity |].
  exists calls. split; [exact Hev | exact Hnot].
Defined.

(** ** Further properties of the translation unit *)

(** *** Initialisation *)

Ltac bool_facts :=
  repeat match goal with
    | H : negb _ = false |- _ => apply negb_false_iff in H
    | H : negb _ = true |- _ => apply negb_true_iff in H
    | H : _ || _ = false |- _ => apply orb_false_iff in H as [? ?]
    | H : _ || _ = true |- _ => apply orb_true_iff in H as [?|?]
    | H : (_ <? _) = false |- _ => apply Z.ltb_ge in H
    | H : (_ <? _) = true |- _ => apply Z.ltb_lt in H
    end.

Lemma OffloadSigning_engine_after lib custom_key cert ctx w :
  is_Some (custom_engine (globals (OffloadSigning lib custom_key cert ctx w).2))
  ↔ engine_ready lib w.
Proof.
  unfold engine_ready, init_succeeds. unfold_offload.
  exec.
  all: try serve_facts.
  all: repeat match goal with
         | H : globals ?w0 = _ |- context [globals ?w0] => rewrite H
         end; cbn.
  all: bool_facts.
  all: split; [intros [e' He'] | intros [[e' He']|(? & ? & [? ?] & [? ?] & ? & ?)]].
  all: try congruence; try lia.
  all: try (by left; eauto).
  all: try (by eauto).
  all: try (right; split_and!; by eauto).
Qed.

Lemma OffloadSigning_not_ready lib custom_key cert ctx w :
  ¬ engine_ready lib w →
  (OffloadSigning lib custom_key cert ctx w).1 = Val 0 ∧
  ssl_ctxs (OffloadSigning lib custom_key cert ctx w).2 = ssl_ctxs w ∧
  pkeys (OffloadSigning lib custom_key cert ctx w).2 = pkeys w ∧
  custom_keys (OffloadSigning lib custom_key cert ctx w).2 = custom_keys w.
Proof.
  unfold engine_ready, init_succeeds. intros Hn. unfold_offload.
  exec.
  all: try done.
  all: exfalso; apply Hn; bool_facts.
  all: try (by left; eauto).
  all: right; split_and!; by eauto.
Qed.
Lemma MakeCustomMethod_Some lib nid m :
  MakeCustomMethod lib nid = Some m →
  ∃ native, EVP_PKEY_meth_find_ret lib nid = Some native ∧ is_override_of nid native m.
Proof.
  unfold MakeCustomMethod, EVP_PKEY_meth_new, EVP_PKEY_meth_find.
  destruct (EVP_PKEY_meth_new_ok lib nid); [|done].
  destruct (EVP_PKEY_meth_find_ret lib nid) as [n|]; [|done].
  intros [= <-]. exists n. split; [done|].
  split; [reflexivity|]. split; [reflexivity|].
  intros slot. by destruct slot.
Qed.

Lemma MakeCustomMethod_override lib nid m :
  MakeCustomMethod lib nid = Some m → is_override nid m.
Proof.
  intros (n & _ & Hid & Hflags & Hmem)%MakeCustomMethod_Some.
  split; [done|]. split; [done|]. by rewrite Hmem.
Qed.

Lemma OffloadSigning_registrar_ok lib custom_key cert ctx w :
  registrar_ok (globals w) →
  registrar_ok (globals (OffloadSigning lib custom_key cert ctx w).2).
Proof.
  unfold registrar_ok. intros Hok. unfold_offload.
  exec.
  all: try serve_facts.
  all: repeat match goal with
         | H : globals ?w0 = _ |- context [globals ?w0] => rewrite H
         end; cbn.
  all: try (intros e' He'; apply Hok; congruence).
  all: try (intros e' He'; congruence).
  all: intros e' [= <-]; bool_facts.
  all: repeat match goal with
         | H : MakeCustomMethod _ _ = Some _ |- _ => apply MakeCustomMethod_override in H
         end.
  all: repeat match goal with
         | H : context [ENGINE_set_pkey_meths_ok ?l] |- _ =>
             destruct (ENGINE_set_pkey_meths_ok l); simplify_eq
         end.
  all: split_and!; try done; by eauto.
Qed.

Lemma run_registrar_ok calls : ∀ w,
  registrar_ok (globals w) → registrar_ok (globals (run calls w)).
Proof.
  induction calls as [|c cs IH]; intros w Hok; [done|].
  cbn [run]. unfold step.
  pose proof (OffloadSigning_registrar_ok (call_lib c) (call_key c) (call_cert c)
                (call_ctx c) w Hok) as Hok'.
  destruct (OffloadSigning _ _ _ _ w) as [[z|] w'] eqn:E; cbn [snd] in Hok'.
  - by apply IH.
  - done.
Qed.

Lemma registrar_ok_discovery g e :
  registrar_ok g → custom_engine g = Some e →
  (∃ m, EngineGetMethods g true EVP_PKEY_RSA = mkDiscovery 1 (Some (Some m)) None ∧
        is_override EVP_PKEY_RSA m) ∧
  (∃ m, EngineGetMethods g true EVP_PKEY_EC = mkDiscovery 1 (Some (Some m)) None ∧
        is_override EVP_PKEY_EC m).
Proof.
  intros Hok He. destruct (Hok e He) as (_ & _ & _ & (mr & Hr & ?) & (me & Hme & ?)).
  split.
  - exists mr. unfold EngineGetMethods. cbn. by rewrite Hr.
  - exists me. unfold EngineGetMethods. cbn. by rewrite Hme.
Qed.

(** X1. In a process that started with the statics as initialised, after
    any sequence of calls: whenever the engine pointer is set, the engine
    carries [EngineGetMethods] as its discovery callback, both ex-data
    indices are allocated (non-negative), and the callback answers for RSA
    and for EC with a method table of that algorithm whose flags are
    SIGCTX_CUSTOM | AUTOARGLEN together with the DYNAMIC flag the library
    sets on every table it allocates, and whose digest-sign member is
    [CustomDigestSign]. *)
Theorem registrar_invariant (calls : list Call) (env : gmap string string)
    (ctxs : gmap loc SSL_CTX) (keys : gmap loc CustomKey) (m : Mem) (e : ENGINE) :
  let g := globals (run calls (initial_world env ctxs keys m)) in
  custom_engine g = Some e →
  pkey_meths e = Some FnEngineGetMethods ∧
  0 ≤ rsa_ex_index g ∧ 0 ≤ ec_ex_index g ∧
  (∃ mr, EngineGetMethods g true EVP_PKEY_RSA = mkDiscovery 1 (Some (Some mr)) None ∧
         is_override EVP_PKEY_RSA mr) ∧
  (∃ me, EngineGetMethods g true EVP_PKEY_EC = mkDiscovery 1 (Some (Some me)) None ∧
         is_override EVP_PKEY_EC me).
Proof.
  intros g He.
  assert (registrar_ok g) as Hok.
  { apply run_registrar_ok. intros e' He'. discriminate He'. }
  destruct (Hok e He) as (? & ? & ? & _ & _).
  destruct (registrar_ok_discovery g e Hok He) as [? ?].
  split_and!; done.
Qed.

Lemma registrar_invariant_witness :
  let g := globals (run retry_after_failure (process_start ∅)) in
  0 ≤ rsa_ex_index g ∧
  ∃ mr, EngineGetMethods g true EVP_PKEY_RSA = mkDiscovery 1 (Some (Some mr)) None ∧
        pkey_flags mr = 7 ∧
        member mr pm_digestsign = Some FnCustomDigestSign.
Proof.
  destruct (registrar_invariant retry_after_failure ∅
              {[ 1%nat := empty_context; 2%nat := empty_context ]}
              {[ 10%nat := mkCustomKey fixed_signer; 11%nat := mkCustomKey other_signer ]}
              zero_memory (mkEngine (Some FnEngineGetMethods)))
    as (_ & Hr & _ & (mr & Hd & _ & Hflags & Hsign) & _);
    [vm_compute; reflexivity|].
  split; [exact Hr|]. exists mr. split; [exact Hd|]. split; [exact Hflags|exact Hsign].
Defined.

(** X2. A call that finds the engine unset and leaves it set has stored
    the two indices the library handed out and, for RSA and for EC, a
    table made from the library's own table of that algorithm: it has the
    algorithm's identifier and the flags SIGCTX_CUSTOM | AUTOARGLEN |
    DYNAMIC; its init, cleanup, ctrl and ctrl_str members are the
    library's; its digest-sign member is [CustomDigestSign]; every other
    member is null, whatever the library's table has there. *)
Theorem first_initialisation_overrides (lib : OpenSSL) (custom_key : option loc)
    (cert : string) (ctx : loc) (w : World) :
  let g := globals (OffloadSigning lib custom_key cert ctx w).2 in
  custom_engine (globals w) = None →
  is_Some (custom_engine g) →
  ∃ native_rsa native_ec custom_rsa custom_ec,
    EVP_PKEY_meth_find_ret lib EVP_PKEY_RSA = Some native_rsa ∧
    EVP_PKEY_meth_find_ret lib EVP_PKEY_EC = Some native_ec ∧
    custom_rsa_pkey_method g = Some custom_rsa ∧
    is_override_of EVP_PKEY_RSA native_rsa custom_rsa ∧
    custom_ec_pkey_method g = Some custom_ec ∧
    is_override_of EVP_PKEY_EC native_ec custom_ec ∧
    rsa_ex_index g = RSA_get_ex_new_index_ret lib ∧
    ec_ex_index g = EC_KEY_get_ex_new_index_ret lib.
Proof.
  intros g Hnone. subst g. revert Hnone. unfold_offload.
  exec.
  all: try serve_facts.
  all: repeat match goal with
         | H : globals ?w0 = _ |- context [globals ?w0] => rewrite H
         end; cbn.
  all: intros Hnone [e' He']; try congruence.
  all: repeat match goal with
         | H : MakeCustomMethod _ _ = Some _ |- _ =>
             apply MakeCustomMethod_Some in H as (? & ? & ?)
         end.
  all: eexists _, _, _, _; split_and!; done.
Qed.

Lemma first_initialisation_overrides_witness :
  ∃ custom_rsa,
    custom_rsa_pkey_method
      (globals (OffloadSigning healthy (Some 10%nat) EC_PEM 1%nat (process_start ∅)).2)
    = Some custom_rsa ∧
    pkey_flags custom_rsa = 7 ∧
    member custom_rsa pm_init = Some (FnNative 1) ∧
    member custom_rsa pm_sign = None ∧
    member custom_rsa pm_digestsign = Some FnCustomDigestSign.
Proof.
  destruct (first_initialisation_overrides healthy (Some 10%nat) EC_PEM 1%nat
              (process_start ∅))
    as (nr & ne & mr & me & Hr & _ & H & (_ & Hflags & Hmem) & _);
    [reflexivity | vm_compute; eauto |].
  exists mr. split; [exact H|]. split; [exact Hflags|].
  rewrite !Hmem. vm_compute in Hr. injection Hr as <-.
  split_and!; reflexivity.
Defined.

(** *** The key-context registry *)

Lemma SetCustomKey_outcome lib pkey key w :
  let r := SetCustomKey lib pkey key w in
  (r.1 = Val true → (GetCustomKey pkey r.2).1 = Val key) ∧
  (r.1 = Val false → (GetCustomKey pkey r.2).1 = (GetCustomKey pkey w).1) ∧
  (∀ q, q ≠ pkey → pkeys r.2 !! q = pkeys w !! q) ∧
  globals r.2 = globals w ∧ ssl_ctxs r.2 = ssl_ctxs w ∧
  custom_keys r.2 = custom_keys w ∧ events r.2 = events w ∧ memory r.2 = memory w.
Proof.
  intros r. subst r.
  destruct (pkeys w !! pkey) as [pk|] eqn:Hpk.
  2:{ unfold SetCustomKey. unfold_m. cbn. rewrite Hpk. cbn. split_and!; done. }
  rewrite (GetCustomKey_found pkey pk w Hpk).
  unfold SetCustomKey, CRYPTO_set_ex_data. unfold_m. cbn. rewrite Hpk. cbn.
  destruct (pk_type pk =? EVP_PKEY_RSA) eqn:Hrsa;
    [|destruct (pk_type pk =? EVP_PKEY_EC) eqn:Hec].
  3:{ cbn. rewrite (GetCustomKey_found pkey pk w Hpk), Hrsa, Hec. split_and!; done. }
  all: rewrite LogInfo_run; cbn.
  - destruct (pk_rsa pk) as [rsa|] eqn:Hr; cbn;
      [|erewrite GetCustomKey_found by (cbn; exact Hpk); rewrite Hrsa, Hr; split_and!; done].
    destruct (set_ex_data_ok lib && (0 <=? rsa_ex_index (globals w))); cbn.
    all: erewrite GetCustomKey_found by (cbn; apply lookup_insert_eq); cbn.
    all: rewrite Hrsa; cbn.
    all: split_and!; try done.
    all: try (intros q Hq; by rewrite lookup_insert_ne).
    + intros _. destruct key; by rewrite ?lookup_insert_eq, ?lookup_delete_eq.
  - destruct (pk_ec pk) as [ec|] eqn:Hr; cbn;
      [|erewrite GetCustomKey_found by (cbn; exact Hpk); rewrite Hrsa, Hec, Hr; split_and!; done].
    destruct (set_ex_data_ok lib && (0 <=? ec_ex_index (globals w))); cbn.
    all: erewrite GetCustomKey_found by (cbn; apply lookup_insert_eq); cbn.
    all: rewrite Hrsa, Hec; cbn.
    all: split_and!; try done.
    all: try (intros q Hq; by rewrite lookup_insert_ne).
    + intros _. destruct key; by rewrite ?lookup_insert_eq, ?lookup_delete_eq.
Qed.

(** *** Keys made and released by a bind *)

Lemma ConfigureCertAndCustomKey_keys lib custom_key cert w :
  let r := ConfigureCertAndCustomKey lib custom_key cert w in
  match r.1 with
  | Val (Some p) =>
      pkeys w !! p = None ∧ ∀ q, q ≠ p → pkeys r.2 !! q = pkeys w !! q
  | _ => pkeys r.2 = pkeys w
  end.
Proof.
  unfold_configure. unfold CRYPTO_set_ex_data.
  exec.
  all: try done.
  all: rewrite ?insert_insert_eq.
  all: try (by apply delete_insert_id, (proj1 (new_key_free _))).
  all: split; [apply (proj1 (new_key_free _))|].
  all: intros q Hq; by rewrite lookup_insert_ne.
Qed.

Lemma ServeTLS_effects lib custom_key cert ctx w r w' :
  ServeTLS lib custom_key cert ctx w = (r, w') →
  (∀ c, c ≠ ctx → ssl_ctxs w' !! c = ssl_ctxs w !! c) ∧
  (∀ q, is_Some (pkeys w !! q) →
        (∀ c, ssl_ctxs w !! ctx = Some c → private_key c ≠ Some q) →
        pkeys w' !! q = pkeys w !! q) ∧
  (r = Val false →
     (ssl_ctxs w' = ssl_ctxs w ∧ pkeys w' = pkeys w) ∨
     (∃ c p pk,
        ssl_ctxs w !! ctx = Some c ∧ pkeys w !! p = None ∧
        pkeys w' !! p = Some pk ∧ pk_refs pk = 1%nat ∧
        (GetCustomKey p w').1 = Val custom_key ∧
        (ssl_ctxs w' !! ctx =
           Some (mkCtx (method_version c) (Some p) (certificate c)
                       (min_proto_version c)) ∨
         ssl_ctxs w' !! ctx =
           Some (mkCtx (method_version c) (Some p) (PEM_read_bio_X509_ret lib cert)
                       (min_proto_version c))))).
Proof.
  unfold ServeTLS.
  rewrite !(bind_run _ _ _ _ _ (LogInfo_run _ _)).
  destruct (BIO_new_mem_buf_ok lib); cbn [negb];
    [|rewrite (bind_run _ _ _ _ _ (LogInfo_run _ _)); unfold_m; cbn;
      intros [= <- <-]; split_and!; [done|done|by left]].
  rewrite (bind_run _ _ _ _ _ (LogInfo_run _ _)).
  unfold bind at 1.
  match goal with
  | |- context [ConfigureCertAndCustomKey ?l ?k ?y ?w0] =>
      pose proof (ConfigureCertAndCustomKey_frame l k y w0) as F;
      pose proof (ConfigureCertAndCustomKey_keys l k y w0) as K;
      destruct (ConfigureCertAndCustomKey l k y w0) as [[[p|]|] w1] eqn:E
  end; cbn in F, K; destruct F as (Hg & _ & _ & _ & Hc & _ & _).
  2:{ rewrite (bind_run _ _ _ _ _ (LogInfo_run _ _)). unfold_m.
      intros [= <- <-]. cbn. rewrite Hc, K. split_and!; [done|done|by left]. }
  2:{ intros [= <- <-]. cbn. rewrite Hc, K. split_and!; done. }
  destruct K as [Hfree Hother].
  destruct (ConfigureCertAndCustomKey_new _ _ _ _ _ _ E) as [_ Hnew].
  assert (∀ c, ssl_ctxs w !! ctx = Some c → private_key c ≠ Some p) as Hheld.
  { intros c Hctx Hp. apply Hnew. eapply held_keys_spec; [exact Hctx|exact Hp]. }
  apply ConfigureCertAndCustomKey_bound in E
    as (x & pk & Hx & Hpk & _ & _ & _ & _ & Hrefs & Hget).
  rewrite (GetCustomKey_found p pk w1 Hpk) in Hget.
  cbn in Hg, Hc. rewrite Hg in Hget.
  assert (∀ q, is_Some (pkeys w !! q) → q ≠ p) as Hne.
  { intros q [? Hq] ->. congruence. }
  assert (delete p (pkeys w1) = pkeys w) as Hdel.
  { apply map_eq. intros i. destruct (decide (i = p)) as [->|Hi].
    - by rewrite lookup_delete_eq.
    - rewrite lookup_delete_ne by done. by apply Hother. }
  unfold SSL_CTX_use_PrivateKey, SSL_CTX_use_certificate,
    SSL_CTX_set_min_proto_version, EVP_PKEY_up_ref, EVP_PKEY_free.
  cbn in Hc.
  destruct (ssl_ctxs w !! ctx) as [c0|] eqn:Hctx.
  2:{ unfold_m. cbn. rewrite Hc, Hctx. intros [= <- <-]. cbn. rewrite Hc.
      split_and!; [done| |done].
      intros q Hq _. specialize (Hne q Hq). by apply Hother. }
  specialize (Hheld c0 eq_refl).
  exec_with ltac:(rewrite ?Hc, ?Hctx, ?(released_other _ _ p Hheld), ?Hpk, ?Hrefs, ?Hx).
  all: intros [= <- <-]; cbn.
  all: rewrite ?Hc.
  all: split_and!.
  all: try (intros c' Hc'; by rewrite ?lookup_insert_ne).
  all: try (intros q Hq Hq'; specialize (Hne q Hq);
            rewrite ?lookup_insert_ne, ?lookup_delete_ne by done;
            rewrite ?released_other by (by apply Hq');
            by apply Hother).
  all: try done.
  all: intros _.
  all: try (left; by rewrite ?insert_insert_eq, ?delete_insert_eq).
  all: right; eexists _, p, _.
  all: rewrite ?insert_insert_eq, ?lookup_insert_eq.
  all: erewrite GetCustomKey_found by (cbn; apply lookup_insert_eq).
  all: cbn; rewrite ?Hg; cbn.
  all: split_and!; try done.
  all: try (rewrite <- Hc; done).
  all: by eauto.
Qed.

Lemma OffloadSigning_effects lib custom_key cert ctx w r w' :
  OffloadSigning lib custom_key cert ctx w = (r, w') →
  (∀ c, c ≠ ctx → ssl_ctxs w' !! c = ssl_ctxs w !! c) ∧
  (∀ q, is_Some (pkeys w !! q) →
        (∀ c, ssl_ctxs w !! ctx = Some c → private_key c ≠ Some q) →
        pkeys w' !! q = pkeys w !! q) ∧
  (r = Val 0 →
     (ssl_ctxs w' = ssl_ctxs w ∧ pkeys w' = pkeys w) ∨
     (∃ c p pk,
        ssl_ctxs w !! ctx = Some c ∧ pkeys w !! p = None ∧
        pkeys w' !! p = Some pk ∧ pk_refs pk = 1%nat ∧
        (GetCustomKey p w').1 = Val custom_key ∧
        (ssl_ctxs w' !! ctx =
           Some (mkCtx (method_version c) (Some p) (certificate c)
                       (min_proto_version c)) ∨
         ssl_ctxs w' !! ctx =
           Some (mkCtx (method_version c) (Some p) (PEM_read_bio_X509_ret lib cert)
                       (min_proto_version c))))).
Proof.
  unfold_offload.
  exec.
  all: intros [= <- <-]; cbn.
  all: try (split_and!; [done|done|by left]).
  all: match goal with
       | H : ServeTLS _ _ _ _ _ = _ |- _ =>
           apply ServeTLS_effects in H as (H1 & H2 & H3); cbn in H1, H2, H3
       end.
  all: split_and!; try done.
  all: intros _; bool_facts; simplify_eq.
  all: destruct (H3 eq_refl) as [?|(c & p & pk & ? & ? & Hpk & ? & Hget & ?)]; [by left|].
  all: right; exists c, p, pk.
  all: erewrite (GetCustomKey_found p pk) in Hget by done.
  all: erewrite (GetCustomKey_found p pk) by done.
  all: split_and!; done.
Qed.

(** X3. After a call the engine pointer is set exactly when it was set
    before the call or every step of the initialisation succeeded in it,
    whatever became of the bind; when the initialisation fails the call
    returns 0 and has touched neither a TLS context nor a key nor a handle. *)
Theorem initialisation_outcome (lib : OpenSSL) (custom_key : option loc)
    (cert : string) (ctx : loc) (w : World) :
  let r := OffloadSigning lib custom_key cert ctx w in
  (is_Some (custom_engine (globals r.2)) ↔ engine_ready lib w) ∧
  (¬ engine_ready lib w →
   r.1 = Val 0 ∧ ssl_ctxs r.2 = ssl_ctxs w ∧ pkeys r.2 = pkeys w ∧
   custom_keys r.2 = custom_keys w).
Proof.
  intros r. subst r. split.
  - apply OffloadSigning_engine_after.
  - apply OffloadSigning_not_ready.
Qed.

Lemma initialisation_outcome_witness :
  (OffloadSigning engine_unavailable (Some 10%nat) EC_PEM 1%nat (process_start ∅)).1 = Val 0.
Proof.
  apply (initialisation_outcome engine_unavailable (Some 10%nat) EC_PEM 1%nat
           (process_start ∅)).
  intros [[e He]|(_ & _ & _ & _ & Hnew & _)]; [discriminate He | discriminate Hnew].
Defined.

(** X4. Attach and look up: when [SetCustomKey] returns true, [GetCustomKey]
    on the same key yields the handle just attached (null for a null
    handle), replacing whatever was attached before; when it returns false
    the lookup yields what it did before.  Either way no other key object and
    nothing outside the key heap changes. *)
Theorem attach_then_lookup (lib : OpenSSL) (pkey : loc) (key : option loc) (w : World) :
  let r := SetCustomKey lib pkey key w in
  (r.1 = Val true → (GetCustomKey pkey r.2).1 = Val key) ∧
  (r.1 = Val false → (GetCustomKey pkey r.2).1 = (GetCustomKey pkey w).1) ∧
  (∀ q, q ≠ pkey → pkeys r.2 !! q = pkeys w !! q) ∧
  globals r.2 = globals w ∧ ssl_ctxs r.2 = ssl_ctxs w ∧
  custom_keys r.2 = custom_keys w ∧ events r.2 = events w ∧ memory r.2 = memory w.
Proof. apply SetCustomKey_outcome. Qed.

Lemma attach_then_lookup_witness :
  (GetCustomKey 0%nat (SetCustomKey healthy 0%nat (Some 11%nat)
                         (SetCustomKey healthy 0%nat (Some 10%nat) two_keys).2).2).1
  = Val (Some 11%nat).
Proof.
  apply (attach_then_lookup healthy 0%nat (Some 11%nat)
           (SetCustomKey healthy 0%nat (Some 10%nat) two_keys).2).
  vm_compute. reflexivity.
Defined.

(** X5. [GetCustomKey] changes nothing, and it yields null for every key
    that is neither RSA nor EC. *)
Theorem GetCustomKey_read_only (pkey : loc) (w : World) :
  (GetCustomKey pkey w).2 = w ∧
  (∀ pk, pkeys w !! pkey = Some pk →
         pk_type pk ≠ EVP_PKEY_RSA → pk_type pk ≠ EVP_PKEY_EC →
         (GetCustomKey pkey w).1 = Val None).
Proof.
  split.
  - pose proof (GetCustomKey_frame pkey w w eq_refl eq_refl eq_refl) as H.
    by rewrite H.
  - intros pk Hpk Hrsa%Z.eqb_neq Hec%Z.eqb_neq.
    by rewrite (GetCustomKey_found pkey pk w Hpk), Hrsa, Hec.
Qed.

Lemma GetCustomKey_read_only_witness :
  (GetCustomKey 5%nat
     (set_pkeys (insert 5%nat (decoded_key (cert_key ed25519_certificate))) two_keys)).1
  = Val None.
Proof.
  apply (GetCustomKey_read_only 5%nat
           (set_pkeys (insert 5%nat (decoded_key (cert_key ed25519_certificate))) two_keys))
    with (pk := decoded_key (cert_key ed25519_certificate));
    [vm_compute; reflexivity | vm_compute; discriminate | vm_compute; discriminate].
Defined.

(** X6. [ConfigureCertAndCustomKey] leaves no key behind when it fails: if
    it returns null the key heap is what it was.  The key it returns
    otherwise is a new object (it designated nothing before), carries one
    reference, the engine and the handle, and no other key was touched. *)
Theorem ConfigureCertAndCustomKey_key_heap (lib : OpenSSL) (custom_key : option loc)
    (cert : option X509) (w : World) :
  let r := ConfigureCertAndCustomKey lib custom_key cert w in
  (r.1 = Val None → pkeys r.2 = pkeys w) ∧
  (∀ p, r.1 = Val (Some p) →
     pkeys w !! p = None ∧
     (∀ q, q ≠ p → pkeys r.2 !! q = pkeys w !! q) ∧
     ∃ pk, pkeys r.2 !! p = Some pk ∧ pk_refs pk = 1%nat ∧
           pk_engine pk = custom_engine (globals w) ∧
           (GetCustomKey p r.2).1 = Val custom_key).
Proof.
  intros r. subst r.
  pose proof (ConfigureCertAndCustomKey_keys lib custom_key cert w) as K.
  destruct (ConfigureCertAndCustomKey lib custom_key cert w) as [res w'] eqn:E.
  cbn in K. cbn [fst snd]. split.
  - by intros ->.
  - intros p ->. destruct K as [? ?].
    apply ConfigureCertAndCustomKey_bound in E
      as (x & pk & _ & ? & _ & _ & _ & ? & ? & ?).
    split_and!; [done|done|]. exists pk. split_and!; done.
Qed.

Lemma ConfigureCertAndCustomKey_key_heap_witness :
  pkeys (ConfigureCertAndCustomKey healthy (Some 10%nat) (Some ed25519_certificate)
           two_bindings).2 = pkeys two_bindings.
Proof.
  apply (ConfigureCertAndCustomKey_key_heap healthy (Some 10%nat)
           (Some ed25519_certificate) two_bindings).
  vm_compute. reflexivity.
Defined.

(** X7. [OffloadSigning] works on the TLS context it is given and on no
    other: every other context is what it was, whatever the outcome. *)
Theorem other_contexts_untouched (lib : OpenSSL) (custom_key : option loc)
    (cert : string) (ctx c : loc) (w : World) :
  c ≠ ctx →
  ssl_ctxs (OffloadSigning lib custom_key cert ctx w).2 !! c = ssl_ctxs w !! c.
Proof.
  intros Hc.
  destruct (OffloadSigning lib custom_key cert ctx w) as [r w'] eqn:E.
  apply OffloadSigning_effects in E as (H & _ & _). by apply H.
Qed.

Lemma other_contexts_untouched_witness :
  ssl_ctxs (OffloadSigning healthy (Some 10%nat) EC_PEM 1%nat (process_start ∅)).2 !! 2%nat
  = ssl_ctxs (process_start ∅) !! 2%nat.
Proof.
  apply (other_contexts_untouched healthy (Some 10%nat) EC_PEM 1%nat 2%nat
           (process_start ∅)).
  lia.
Defined.

(** X8. A call that returns 0 never changed the minimum protocol version
    of its context.  Either it changed no context and no key at all, or it
    had already installed the new bound key (and possibly the certificate)
    in the context when a later step failed. *)
Theorem failed_bind_keeps_protocol_floor (lib : OpenSSL) (custom_key : option loc)
    (cert : string) (ctx : loc) (w : World) (c : SSL_CTX) :
  let r := OffloadSigning lib custom_key cert ctx w in
  r.1 = Val 0 →
  ssl_ctxs w !! ctx = Some c →
  ∃ c', ssl_ctxs r.2 !! ctx = Some c' ∧
        min_proto_version c' = min_proto_version c ∧
        ((c' = c ∧ pkeys r.2 = pkeys w) ∨
         (∃ p pk, private_key c' = Some p ∧ pkeys w !! p = None ∧
                  pkeys r.2 !! p = Some pk ∧ pk_refs pk = 1%nat ∧
                  (GetCustomKey p r.2).1 = Val custom_key ∧
                  (certificate c' = certificate c ∨
                   certificate c' = PEM_read_bio_X509_ret lib cert))).
Proof.
  intros r. subst r.
  destruct (OffloadSigning lib custom_key cert ctx w) as [r w'] eqn:E.
  cbn [fst snd]. intros -> Hc.
  apply OffloadSigning_effects in E as (_ & _ & H).
  destruct (H eq_refl) as [[Hs Hp]|(c0 & p & pk & Hc0 & ? & ? & ? & ? & Hnew)].
  - exists c. rewrite Hs. split_and!; [done|done|by left].
  - assert (c0 = c) as -> by congruence.
    destruct Hnew as [Hnew|Hnew]; eexists; (split; [exact Hnew|]); cbn;
      (split; [done|]); right; exists p, pk; split_and!; auto.
Qed.

Lemma failed_bind_keeps_protocol_floor_witness :
  ∃ c', ssl_ctxs (OffloadSigning certificate_refused (Some 10%nat) EC_PEM 1%nat
                    (process_start ∅)).2 !! 1%nat = Some c' ∧
        min_proto_version c' = min_proto_version empty_context.
Proof.
  destruct (failed_bind_keeps_protocol_floor certificate_refused (Some 10%nat) EC_PEM
              1%nat (process_start ∅) empty_context)
    as (c' & H1 & H2 & _); [vm_compute; reflexivity | vm_compute; reflexivity |].
  exists c'. split; [exact H1 | exact H2].
Defined.

(** *** What the thunk and the handle functions leave alone *)

Lemma CustomDigestSign_keeps ctx sig sig_len tbs tbs_len w :
  let r := CustomDigestSign ctx sig sig_len tbs tbs_len w in
  pkeys r.2 = pkeys w ∧ globals r.2 = globals w ∧ ssl_ctxs r.2 = ssl_ctxs w ∧
  custom_keys r.2 = custom_keys w ∧ environ r.2 = environ w.
Proof.
  unfold CustomDigestSign, GetCustomKey, Sign.
  exec. all: done.
Qed.

Lemma OffloadSigning_process_frame lib custom_key cert ctx w :
  let r := OffloadSigning lib custom_key cert ctx w in
  environ r.2 = environ w ∧ custom_keys r.2 = custom_keys w ∧ memory r.2 = memory w.
Proof.
  unfold_offload.
  exec.
  all: try serve_facts.
  all: done.
Qed.


Lemma CreateCustomKey_run f w :
  CreateCustomKey f w =
    (Val (fresh (dom (custom_keys w))),
     logged_if (EnableLogging (globals w)) ("In CreateCustomKey" +:+ nl)
       (set_custom_keys (insert (fresh (dom (custom_keys w))) (mkCustomKey f)) w)).
Proof.
  unfold CreateCustomKey, logged_if. unfold_m. cbn.
  destruct (EnableLogging (globals w)) eqn:Hl; cbn; [|done].
  by rewrite LogInfo_run.
Qed.

Lemma fresh_handle_free (m : gmap loc CustomKey) : m !! fresh (dom m) = None.
Proof. apply not_elem_of_dom, is_fresh. Qed.

Lemma logged_if_fields b message w :
  custom_keys (logged_if b message w) = custom_keys w ∧
  pkeys (logged_if b message w) = pkeys w ∧
  globals (logged_if b message w) = globals w ∧
  events (logged_if b message w) = events w ∧
  memory (logged_if b message w) = memory w ∧
  ssl_ctxs (logged_if b message w) = ssl_ctxs w.
Proof. unfold logged_if. by destruct b. Qed.

Lemma DestroyCustomKey_live key ck w :
  custom_keys w !! key = Some ck →
  DestroyCustomKey (Some key) w =
    (Val tt, set_custom_keys (delete key)
               (logged_if (EnableLogging (globals w)) ("In DestroyCustomKey" +:+ nl) w)).
Proof.
  intros Hck. unfold DestroyCustomKey, logged_if. unfold_m. cbn.
  destruct (EnableLogging (globals w)); cbn; rewrite ?LogInfo_run; cbn;
    by rewrite Hck.
Qed.

Lemma DestroyCustomKey_dangling key w :
  custom_keys w !! key = None →
  (DestroyCustomKey (Some key) w).1 = Crash.
Proof.
  intros Hck. unfold DestroyCustomKey. unfold_m. cbn.
  destruct (EnableLogging (globals w)); cbn; rewrite ?LogInfo_run; cbn;
    by rewrite Hck.
Qed.

(** X9. A call of the signing thunk, whatever it returns, changes no key
    object, no static, no TLS context and no handle; in particular every
    key resolves to the same handle afterwards, so a failed signature does
    not affect the next one. *)
Theorem signing_keeps_bindings (ctx : EVP_MD_CTX) (sig sig_len tbs : addr)
    (tbs_len : Z) (w : World) (pkey : loc) :
  let r := CustomDigestSign ctx sig sig_len tbs tbs_len w in
  pkeys r.2 = pkeys w ∧ globals r.2 = globals w ∧ ssl_ctxs r.2 = ssl_ctxs w ∧
  custom_keys r.2 = custom_keys w ∧
  (GetCustomKey pkey r.2).1 = (GetCustomKey pkey w).1.
Proof.
  intros r. subst r.
  destruct (CustomDigestSign_keeps ctx sig sig_len tbs tbs_len w) as (Hp & Hg & Hs & Hk & _).
  split_and!; try done.
  rewrite (GetCustomKey_frame pkey w); [done|by rewrite Hp|by rewrite Hg..].
Qed.

(** X10. [CreateCustomKey] returns a handle that designated nothing before,
    wraps exactly the callback it was given and leaves every other handle
    alone; destroying that handle again gives back the handles there were. *)
Theorem create_then_destroy (f : SignFunc) (w : World) :
  ∃ key,
    (CreateCustomKey f w).1 = Val key ∧
    custom_keys w !! key = None ∧
    custom_keys (CreateCustomKey f w).2 !! key = Some (mkCustomKey f) ∧
    (∀ h, h ≠ key →
       custom_keys (CreateCustomKey f w).2 !! h = custom_keys w !! h) ∧
    (DestroyCustomKey (Some key) (CreateCustomKey f w).2).1 = Val tt ∧
    custom_keys (DestroyCustomKey (Some key) (CreateCustomKey f w).2).2 = custom_keys w.
Proof.
  exists (fresh (dom (custom_keys w))). rewrite CreateCustomKey_run. cbn [fst snd].
  pose proof (fresh_handle_free (custom_keys w)) as Hfree.
  set (key := fresh (dom (custom_keys w))) in *.
  set (w1 := logged_if _ _ _).
  assert (custom_keys w1 = <[key := mkCustomKey f]> (custom_keys w)) as Hk.
  { subst w1. by destruct (logged_if_fields (EnableLogging (globals w))
                 ("In CreateCustomKey" +:+ nl)
                 (set_custom_keys (insert key (mkCustomKey f)) w)) as (-> & _). }
  assert (custom_keys w1 !! key = Some (mkCustomKey f)) as Hlive
    by (by rewrite Hk, lookup_insert_eq).
  rewrite (DestroyCustomKey_live key _ w1 Hlive). cbn [fst snd].
  split_and!; [done|done|done| |done|].
  - intros h Hh. by rewrite Hk, lookup_insert_ne.
  - cbn. destruct (logged_if_fields (EnableLogging (globals w1))
                     ("In DestroyCustomKey" +:+ nl) w1) as (-> & _).
    rewrite Hk. by apply delete_insert_id.
Qed.

Lemma create_then_destroy_witness :
  ∃ key, (CreateCustomKey other_signer (process_start ∅)).1 = Val key ∧
         custom_keys (CreateCustomKey other_signer (process_start ∅)).2 !! 10%nat
         = custom_keys (process_start ∅) !! 10%nat.
Proof.
  destruct (create_then_destroy other_signer (process_start ∅))
    as (key & Hkey & _ & _ & Hother & _).
  exists key. split; [exact Hkey|].
  apply Hother. vm_compute in Hkey. injection Hkey as <-. lia.
Defined.

(** X11. [DestroyCustomKey] does not detach the handle from the key it is
    attached to: the key still resolves to it, and a later call of the
    signing thunk on that key goes through the dangling pointer, which is
    undefined; no signer is called.  Destroying the handle a second time is
    undefined as well. *)
Theorem destroyed_handle_stays_attached (key pkey : loc) (ck : CustomKey) (w : World)
    (sig sig_len tbs : addr) (tbs_len : Z) :
  custom_keys w !! key = Some ck →
  (GetCustomKey pkey w).1 = Val (Some key) →
  let w' := (DestroyCustomKey (Some key) w).2 in
  (DestroyCustomKey (Some key) w).1 = Val tt ∧
  custom_keys w' !! key = None ∧
  (GetCustomKey pkey w').1 = Val (Some key) ∧
  (CustomDigestSign (signing_context pkey) sig sig_len tbs tbs_len w').1 = Crash ∧
  events (CustomDigestSign (signing_context pkey) sig sig_len tbs tbs_len w').2 = events w ∧
  (DestroyCustomKey (Some key) w').1 = Crash.
Proof.
  intros Hck Hget w'. subst w'.
  rewrite (DestroyCustomKey_live key ck w Hck). cbn [fst snd].
  set (w1 := set_custom_keys _ _).
  destruct (logged_if_fields (EnableLogging (globals w))
              ("In DestroyCustomKey" +:+ nl) w) as (Hk0 & Hp0 & Hg0 & He0 & _).
  assert (pkeys w1 = pkeys w ∧ globals w1 = globals w ∧ events w1 = events w ∧
          custom_keys w1 = delete key (custom_keys w)) as (Hp & Hg & He & Hk).
  { subst w1. cbn. by rewrite Hk0, Hp0, Hg0, He0. }
  assert (custom_keys w1 !! key = None) as Hgone by (by rewrite Hk, lookup_delete_eq).
  assert ((GetCustomKey pkey w1).1 = Val (Some key)) as Hget1.
  { rewrite (GetCustomKey_frame pkey w); [done|by rewrite Hp|by rewrite Hg..]. }
  destruct (CustomDigestSign_dangling (signing_context pkey) sig sig_len tbs tbs_len
              w1 pkey key eq_refl Hget1 Hgone) as (Hc & Hev & _).
  split_and!; [done|done|done|done|by rewrite Hev|].
  by apply DestroyCustomKey_dangling.
Qed.

Lemma destroyed_handle_stays_attached_witness :
  (CustomDigestSign (signing_context 0%nat) 1000 2000 3000 32
     (DestroyCustomKey (Some 10%nat) two_bindings).2).1 = Crash.
Proof.
  apply (destroyed_handle_stays_attached 10%nat 0%nat (mkCustomKey fixed_signer)
           two_bindings 1000 2000 3000 32);
    vm_compute; reflexivity.
Defined.

(** X12. End to end: a handle made by [CreateCustomKey] for a callback and
    bound by a successful [OffloadSigning] is what the signing thunk reaches
    through the key installed in the context: the thunk returns what the
    callback returns, memory is what the callback leaves, and the one signer
    call is on that handle. *)
Theorem created_handle_signs (f : SignFunc) (lib : OpenSSL) (cert : string)
    (ctx : loc) (w : World) (sig sig_len tbs : addr) (tbs_len : Z) :
  ∃ key,
    (CreateCustomKey f w).1 = Val key ∧
    let bound := OffloadSigning lib (Some key) cert ctx (CreateCustomKey f w).2 in
    (bound.1 = Val 1 →
     ∃ c p, ssl_ctxs bound.2 !! ctx = Some c ∧ private_key c = Some p ∧
       let s := CustomDigestSign (signing_context p) sig sig_len tbs tbs_len bound.2 in
       s.1 = Val (f sig sig_len tbs tbs_len (memory w)).1 ∧
       memory s.2 = (f sig sig_len tbs tbs_len (memory w)).2 ∧
       events s.2 = events bound.2 ++ [SignCall key sig sig_len tbs tbs_len]).
Proof.
  exists (fresh (dom (custom_keys w))). rewrite CreateCustomKey_run. cbn [fst snd].
  split; [done|].
  set (key := fresh (dom (custom_keys w))).
  set (w1 := logged_if _ _ _).
  assert (custom_keys w1 !! key = Some (mkCustomKey f) ∧ memory w1 = memory w)
    as (Hk1 & Hm1).
  { subst w1.
    destruct (logged_if_fields (EnableLogging (globals w)) ("In CreateCustomKey" +:+ nl)
                (set_custom_keys (insert key (mkCustomKey f)) w))
      as (-> & _ & _ & _ & -> & _).
    cbn. by rewrite lookup_insert_eq. }
  destruct (OffloadSigning_process_frame lib (Some key) cert ctx w1) as (_ & Hk & Hm).
  destruct (OffloadSigning lib (Some key) cert ctx w1) as [r w2] eqn:E.
  cbn [fst snd] in *. intros ->.
  apply OffloadSigning_installed in E
    as (c & p & x & pk & Hc & Hp & _ & _ & _ & _ & _ & _ & _ & _ & Hget).
  exists c, p. split; [done|]. split; [done|]. cbn zeta.
  rewrite <- Hm1, <- Hm.
  apply (CustomDigestSign_signs (signing_context p) sig sig_len tbs tbs_len w2 p key
           (mkCustomKey f) eq_refl Hget).
  by rewrite Hk.
Qed.

Lemma created_handle_signs_witness :
  ∃ key, (CreateCustomKey fixed_signer (process_start ∅)).1 = Val key ∧
    ∃ c p,
      ssl_ctxs (OffloadSigning healthy (Some key) EC_PEM 1%nat
                  (CreateCustomKey fixed_signer (process_start ∅)).2).2 !! 1%nat = Some c ∧
      private_key c = Some p ∧
      (CustomDigestSign (signing_context p) 1000 2000 3000 32
         (OffloadSigning healthy (Some key) EC_PEM 1%nat
            (CreateCustomKey fixed_signer (process_start ∅)).2).2).1 = Val 1.
Proof.
  destruct (created_handle_signs fixed_signer healthy EC_PEM 1%nat (process_start ∅)
              1000 2000 3000 32) as (key & Hkey & H).
  exists key. split; [exact Hkey|].
  assert (key = 12%nat) as -> by (vm_compute in Hkey; congruence).
  destruct H as (c & p & Hc & Hp & Hs & _); [vm_compute; reflexivity|].
  exists c, p. split; [exact Hc|]. split; [exact Hp|]. exact Hs.
Defined.

(** X13. [OffloadSigning] does not test the handle it is given: with a null
    handle the bind can succeed, and the key it installs has nothing
    attached, so every call of the signing thunk on it returns 0, calls no
    signer and writes no memory. *)
Theorem null_handle_binds (lib : OpenSSL) (cert : string) (ctx : loc) (w : World)
    (sig sig_len tbs : addr) (tbs_len : Z) :
  let bound := OffloadSigning lib None cert ctx w in
  bound.1 = Val 1 →
  ∃ c p, ssl_ctxs bound.2 !! ctx = Some c ∧ private_key c = Some p ∧
    let s := CustomDigestSign (signing_context p) sig sig_len tbs tbs_len bound.2 in
    s.1 = Val 0 ∧ events s.2 = events bound.2 ∧ memory s.2 = memory bound.2.
Proof.
  intros bound Hok. subst bound.
  destruct (OffloadSigning lib None cert ctx w) as [r w2] eqn:E.
  cbn [fst snd] in *. subst r.
  apply OffloadSigning_installed in E
    as (c & p & x & pk & Hc & Hp & _ & _ & _ & _ & _ & _ & _ & _ & Hget).
  exists c, p. split; [done|]. split; [done|]. cbn zeta.
  by rewrite (CustomDigestSign_no_handle (signing_context p) sig sig_len tbs tbs_len
                w2 p eq_refl Hget).
Qed.

Lemma null_handle_binds_witness :
  ∃ c p,
    ssl_ctxs (OffloadSigning healthy None EC_PEM 1%nat (process_start ∅)).2 !! 1%nat
      = Some c ∧
    private_key c = Some p ∧
    (CustomDigestSign (signing_context p) 1000 2000 3000 32
       (OffloadSigning healthy None EC_PEM 1%nat (process_start ∅)).2).1 = Val 0.
Proof.
  destruct (null_handle_binds healthy EC_PEM 1%nat (process_start ∅) 1000 2000 3000 32)
    as (c & p & Hc & Hp & Hs & _); [vm_compute; reflexivity|].
  exists c, p. split; [exact Hc|]. split; [exact Hp|]. exact Hs.
Defined.



(** *** The two streams *)

Lemma OffloadSigning_stderr lib custom_key cert ctx w r w' :
  OffloadSigning lib custom_key cert ctx w = (r, w') →
  (r = Val 1 → stderr w' = stderr w) ∧
  (r = Val 0 →
   stderr w' =
     stderr w ++
     match custom_engine (globals w) with
     | None =>
         if (RSA_get_ex_new_index_ret lib <? 0) || (EC_KEY_get_ex_new_index_ret lib <? 0)
         then [ErrText ("Error allocating ex data." +:+ nl)] else []
     | Some _ => []
     end ++ [ErrQueue]).
Proof.
  unfold_offload.
  exec.
  all: intros [= <- <-]; cbn.
  all: try serve_facts.
  all: split; intros [=].
  all: repeat match goal with
         | H : stderr ?w0 = _ |- context [stderr ?w0] => rewrite H
         end; cbn.
  all: repeat match goal with
         | H : (_ || _) = _ |- _ => rewrite H
         end.
  all: try done.
  all: by rewrite <- ?app_assoc.
Qed.

(** X15. With the logging variable absent from the environment, a call of
    [OffloadSigning] prints nothing on standard output, whatever it does
    and however it ends. *)
Theorem silent_without_variable (lib : OpenSSL) (custom_key : option loc)
    (cert : string) (ctx : loc) (w : World) :
  environ w !! LOGGING_VARIABLE = None →
  stdout (OffloadSigning lib custom_key cert ctx w).2 = stdout w.
Proof. apply OffloadSigning_quiet. Qed.

Lemma silent_without_variable_witness :
  stdout (OffloadSigning healthy (Some 10%nat) ED25519_PEM 1%nat (process_start ∅)).2
  = stdout (process_start ∅).
Proof.
  apply (silent_without_variable healthy (Some 10%nat) ED25519_PEM 1%nat (process_start ∅)).
  vm_compute. reflexivity.
Defined.

(** X16. Standard error: a call that returns 1 wrote nothing there; a call
    that returns 0 ended by dumping the OpenSSL error queue, and the only
    line it can have written before that is "Error allocating ex data.",
    written exactly when the engine was unset and one of the two index
    allocations failed. *)
Theorem stderr_on_failure_only (lib : OpenSSL) (custom_key : option loc)
    (cert : string) (ctx : loc) (w : World) :
  let r := OffloadSigning lib custom_key cert ctx w in
  (r.1 = Val 1 → stderr r.2 = stderr w) ∧
  (r.1 = Val 0 →
   stderr r.2 =
     stderr w ++
     match custom_engine (globals w) with
     | None =>
         if (RSA_get_ex_new_index_ret lib <? 0) || (EC_KEY_get_ex_new_index_ret lib <? 0)
         then [ErrText ("Error allocating ex data." +:+ nl)] else []
     | Some _ => []
     end ++ [ErrQueue]).
Proof.
  intros r. subst r.
  destruct (OffloadSigning lib custom_key cert ctx w) as [r w'] eqn:E.
  cbn [fst snd]. by apply (OffloadSigning_stderr lib custom_key cert ctx w).
Qed.

Lemma stderr_on_failure_only_witness :
  stderr (OffloadSigning healthy (Some 10%nat) ED25519_PEM 1%nat (process_start ∅)).2
  = [ErrQueue].
Proof.
  apply (stderr_on_failure_only healthy (Some 10%nat) ED25519_PEM 1%nat (process_start ∅)).
  vm_compute. reflexivity.
Defined.

(** *** When the bind succeeds *)

Lemma registrar_ok_offers g e nid :
  registrar_ok g → custom_engine g = Some e →
  bool_decide (is_Some (ENGINE_get_pkey_meth g e nid))
  = (nid =? EVP_PKEY_EC) || (nid =? EVP_PKEY_RSA).
Proof.
  intros Hok He. destruct (Hok e He) as (Hcb & _ & _ & (mr & Hr & _) & (me & Hme & _)).
  unfold ENGINE_get_pkey_meth, EngineGetMethods. rewrite Hcb. cbn.
  destruct (nid =? EVP_PKEY_EC); cbn; [by rewrite Hme|].
  destruct (nid =? EVP_PKEY_RSA); cbn; [by rewrite Hr|done].
Qed.

Lemma ConfigureCertAndCustomKey_succeeds_iff lib custom_key x w e :
  registrar_ok (globals w) → custom_engine (globals w) = Some e →
  (∃ p, (ConfigureCertAndCustomKey lib custom_key (Some x) w).1 = Val (Some p)) ↔
  0 ≤ i2d_X509_PUBKEY_ret lib ∧ d2i_X509_PUBKEY_ok lib = true ∧
  X509_PUBKEY_get_ok lib = true ∧ ENGINE_init_ok lib = true ∧
  (algor (cert_key x) = EVP_PKEY_RSA ∨ algor (cert_key x) = EVP_PKEY_EC) ∧
  set_ex_data_ok lib = true.
Proof.
  intros Hok He.
  pose proof (registrar_ok_offers (globals w) e (algor (cert_key x)) Hok He) as Hoff.
  destruct (Hok e He) as (_ & Hri%Z.leb_le & Hei%Z.leb_le & _ & _).
  unfold_configure. unfold CRYPTO_set_ex_data.
  exec_with ltac:(rewrite ?He, ?Hoff, ?Hri, ?Hei).
  all: bool_facts.
  all: repeat match goal with
         | H : (_ =? _) = true |- _ => apply Z.eqb_eq in H
         | H : (_ =? _) = false |- _ => apply Z.eqb_neq in H
         | H : _ && _ = true |- _ => apply andb_true_iff in H as [? ?]
         | H : _ && _ = false |- _ => apply andb_false_iff in H as [?|?]
         end.
  all: bool_facts.
  all: repeat match goal with
         | H : (_ =? _) = true |- _ => apply Z.eqb_eq in H
         | H : (_ =? _) = false |- _ => apply Z.eqb_neq in H
         end.
  all: split; [intros [p [=]] | intros (? & ? & ? & ? & [?|?] & ?)].
  all: try congruence; try lia.
  all: try (split_and!; by auto).
  all: try by eauto.
Qed.

Lemma ServeTLS_succeeds_iff lib custom_key cert ctx w e :
  registrar_ok (globals w) → custom_engine (globals w) = Some e →
  (ServeTLS lib custom_key cert ctx w).1 = Val true ↔
  is_Some (ssl_ctxs w !! ctx) ∧ ∃ x, bind_steps_succeed lib cert x.
Proof.
  intros Hok He. unfold bind_steps_succeed, ServeTLS.
  rewrite !(bind_run _ _ _ _ _ (LogInfo_run _ _)).
  destruct (BIO_new_mem_buf_ok lib); cbn [negb].
  2:{ rewrite (bind_run _ _ _ _ _ (LogInfo_run _ _)). unfold_m. cbn.
      split; [done|]. by intros (_ & x & [=] & _). }
  rewrite (bind_run _ _ _ _ _ (LogInfo_run _ _)).
  destruct (PEM_read_bio_X509_ret lib cert) as [x|] eqn:Hx.
  2:{ unfold ConfigureCertAndCustomKey, X509_get_X509_PUBKEY. unfold_m. cbn.
      split; [done|]. by intros (_ & x & _ & [=] & _). }
  unfold bind at 1.
  match goal with
  | |- context [ConfigureCertAndCustomKey ?l ?k (Some x) ?w0] =>
      pose proof (ConfigureCertAndCustomKey_succeeds_iff l k x w0 e Hok He) as S;
      pose proof (ConfigureCertAndCustomKey_frame l k (Some x) w0) as F;
      destruct (ConfigureCertAndCustomKey l k (Some x) w0) as [[[p|]|] w1] eqn:E
  end; cbn in S, F; destruct F as (_ & _ & _ & _ & Hc & _ & _).
  2:{ rewrite (bind_run _ _ _ _ _ (LogInfo_run _ _)). unfold_m. cbn.
      split; [done|]. intros (_ & x' & _ & [= <-] & ? & ? & ? & ? & ? & ? & _).
      destruct S as [_ S]. destruct S as [p [=]]. split_and!; done. }
  2:{ cbn. split; [done|]. intros (_ & x' & _ & [= <-] & ? & ? & ? & ? & ? & ? & _).
      destruct S as [_ S]. destruct S as [p [=]]. split_and!; done. }
  destruct S as [S _]. destruct S as (? & ? & ? & ? & ? & ?); [by eauto|].
  destruct (ConfigureCertAndCustomKey_new _ _ _ _ _ _ E) as [_ Hnew].
  apply ConfigureCertAndCustomKey_bound in E
    as (x' & pk & _ & Hpk & _ & _ & _ & _ & Hrefs & _).
  unfold SSL_CTX_use_PrivateKey, SSL_CTX_use_certificate,
    SSL_CTX_set_min_proto_version, EVP_PKEY_up_ref, EVP_PKEY_free.
  cbn in Hc.
  destruct (ssl_ctxs w !! ctx) as [c0|] eqn:Hctx.
  2:{ unfold_m. cbn. rewrite Hc, Hctx. cbn. split; [done|]. by intros ([? [=]] & _). }
  assert (private_key c0 ≠ Some p) as Hheld.
  { intros Hp. apply Hnew. eapply held_keys_spec; [exact Hctx|exact Hp]. }
  exec_with ltac:(rewrite ?Hc, ?Hctx, ?(released_other _ _ p Hheld), ?Hpk, ?Hrefs).
  all: split; [intros [=] | intros (_ & x0 & _ & [= <-] & _ & _ & _ & _ & _ & _ & ? & ? & ?)].
  all: try congruence.
  all: split; [by eauto|]. 
  all: exists x; split_and!; done.
Qed.

Lemma OffloadSigning_split lib custom_key cert ctx w :
  OffloadSigning lib custom_key cert ctx w =
    match before_bind lib w with
    | (Val true, w0) =>
        match ServeTLS lib custom_key cert ctx w0 with
        | (Val true, w1) => (Val 1, logged "offload function is done" w1)
        | (Val false, w1) => (Val 0, set_stderr (fun e => e ++ [ErrQueue]) w1)
        | (Crash, w1) => (Crash, w1)
        end
    | (Val false, w0) => (Val 0, set_stderr (fun e => e ++ [ErrQueue]) w0)
    | (Crash, w0) => (Crash, w0)
    end.
Proof.
  unfold OffloadSigning, before_bind, InitExData, InitEngine, ENGINE_new,
    ENGINE_set_pkey_meths.
  exec. all: done.
Qed.

Ltac unfold_before_bind :=
  unfold before_bind, InitExData, InitEngine, ENGINE_new, ENGINE_set_pkey_meths.

Lemma before_bind_contexts lib w :
  ssl_ctxs (before_bind lib w).2 = ssl_ctxs w.
Proof. unfold_before_bind. exec. all: reflexivity. Qed.

Lemma before_bind_registrar_ok lib w :
  registrar_ok (globals w) → registrar_ok (globals (before_bind lib w).2).
Proof.
  unfold registrar_ok. intros Hok. unfold_before_bind.
  exec.
  all: try (intros e' He'; apply Hok; congruence).
  all: try (intros e' He'; congruence).
  all: intros e' [= <-]; bool_facts.
  all: repeat match goal with
         | H : MakeCustomMethod _ _ = Some _ |- _ => apply MakeCustomMethod_override in H
         end.
  all: repeat match goal with
         | H : context [ENGINE_set_pkey_meths_ok ?l] |- _ =>
             destruct (ENGINE_set_pkey_meths_ok l); simplify_eq
         end.
  all: split_and!; try done; by eauto.
Qed.

Lemma before_bind_ready lib w :
  ((before_bind lib w).1 = Val true ∧ engine_ready lib w ∧
   is_Some (custom_engine (globals (before_bind lib w).2))) ∨
  ((before_bind lib w).1 = Val false ∧ ¬ engine_ready lib w).
Proof.
  unfold engine_ready, init_succeeds. unfold_before_bind.
  exec.
  all: bool_facts.
  all: first
    [ left; split; [reflexivity|]; split;
        [first [left; by eauto | right; split_and!; by eauto] | by eauto]
    | right; split; [reflexivity|];
      intros [[? [=]]|(? & ? & [? ?] & [? ?] & ? & ?)];
      first [discriminate | lia] ].
Qed.

Lemma OffloadSigning_succeeds_iff lib custom_key cert ctx w :
  registrar_ok (globals w) →
  (OffloadSigning lib custom_key cert ctx w).1 = Val 1 ↔
  engine_ready lib w ∧ is_Some (ssl_ctxs w !! ctx) ∧ ∃ x, bind_steps_succeed lib cert x.
Proof.
  intros Hok. rewrite (OffloadSigning_split lib custom_key cert ctx w).
  pose proof (before_bind_contexts lib w) as Hc.
  pose proof (before_bind_registrar_ok lib w Hok) as Hok0.
  destruct (before_bind_ready lib w) as [(Hr & Hready & [e He])|(Hr & Hnot)];
    destruct (before_bind lib w) as [r w0]; cbn [fst snd] in *; subst r.
  - pose proof (ServeTLS_succeeds_iff lib custom_key cert ctx w0 e Hok0 He) as S.
    rewrite Hc in S.
    destruct (ServeTLS lib custom_key cert ctx w0) as [[[|]|] w1]; cbn [fst snd] in *.
    + split; [intros _|reflexivity]. split; [assumption|]. apply S. reflexivity.
    + split; [intros [=]|]. intros (_ & H). apply S in H. discriminate H.
    + split; [intros [=]|]. intros (_ & H). apply S in H. discriminate H.
  - split; [intros [=]|]. intros (? & _). contradiction.
Qed.

(** X17. In a process that started with the statics as initialised, after
    any sequence of earlier calls, [OffloadSigning] returns 1 exactly when
    the engine is there (it was, or the initialisation succeeds in this
    call), the context pointer designates a context, the certificate text
    parses to a certificate whose key is RSA or EC, and every library step
    of the bind succeeds. *)
Theorem bind_succeeds_exactly_when (calls : list Call) (env : gmap string string)
    (ctxs : gmap loc SSL_CTX) (keys : gmap loc CustomKey) (m : Mem)
    (lib : OpenSSL) (custom_key : option loc) (cert : string) (ctx : loc) :
  let w := run calls (initial_world env ctxs keys m) in
  (OffloadSigning lib custom_key cert ctx w).1 = Val 1 ↔
  engine_ready lib w ∧ is_Some (ssl_ctxs w !! ctx) ∧
  ∃ x, bind_steps_succeed lib cert x.
Proof.
  intros w. apply OffloadSigning_succeeds_iff.
  subst w. apply run_registrar_ok. intros e He. discriminate He.
Qed.

Lemma bind_succeeds_exactly_when_witness :
  (OffloadSigning healthy (Some 10%nat) RSA_PEM 2%nat
     (run retry_after_failure (process_start ∅))).1 = Val 1.
Proof.
  apply (bind_succeeds_exactly_when retry_after_failure ∅
           {[ 1%nat := empty_context; 2%nat := empty_context ]}
           {[ 10%nat := mkCustomKey fixed_signer; 11%nat := mkCustomKey other_signer ]}
           zero_memory healthy (Some 10%nat) RSA_PEM 2%nat).
  split; [|split].
  - left. vm_compute. eauto.
  - vm_compute. eauto.
  - exists rsa_certificate. unfold bind_steps_succeed.
    split_and!; try reflexivity; [vm_compute; discriminate | by left].
Defined.
